(** * graphql-express: account resolvers and request context

    A shallow embedding of [src/utils/apollo-server.js] (the context
    builder, followed in the same file by the user resolvers) and of the
    argument types declared in [src/graphql/schema/user.js].

    Strings are [string]s whose characters stand for code units below 256.
    Asynchronous functions are functions of the world (the user collection,
    a log of the calls made to the outside, the clock) to the outcome of
    their promise and the world after them. *)

From Stdlib Require Import ZArith String Ascii List Bool Lia.
From Stdlib Require Import Sorting.Sorted Sorting.Permutation.
From stdpp Require Import base gmap strings list pretty.

Local Open Scope string_scope.
Local Open Scope Z_scope.

(* ===================================================================== *)
(** * Characters and strings                                              *)
(* ===================================================================== *)

Module Chars.

Definition code (c : ascii) : nat := nat_of_ascii c.

Definition in_range (lo hi : nat) (c : ascii) : bool :=
  (Nat.leb lo (code c)) && (Nat.leb (code c) hi).

Definition is_code (k : nat) (c : ascii) : bool := Nat.eqb (code c) k.

Definition is_upper (c : ascii) : bool := in_range 65 90 c.
Definition is_lower (c : ascii) : bool := in_range 97 122 c.
Definition is_alpha (c : ascii) : bool := is_upper c || is_lower c.
Definition is_digit (c : ascii) : bool := in_range 48 57 c.

(** [\w]: letters, digits and the underscore. *)
Definition is_word (c : ascii) : bool := is_alpha c || is_digit c || is_code 95 c.

Definition is_period (c : ascii) : bool := is_code 46 c.

(** [[\w.]] *)
Definition is_word_or_period (c : ascii) : bool := is_word c || is_period c.

(** Line terminators below 256: line feed and carriage return. *)
Definition is_line_terminator (c : ascii) : bool := is_code 10 c || is_code 13 c.

(** [.] without the [s] flag. *)
Definition is_dot (c : ascii) : bool := negb (is_line_terminator c).

Definition is_any (c : ascii) : bool := true.

(** [\s] below 256: tab, line feed, vertical tab, form feed, carriage
    return, space and the no-break space. *)
Definition is_space (c : ascii) : bool :=
  in_range 9 13 c || is_code 32 c || is_code 160 c.

(** The class of the characters other than the angle brackets, the
    parentheses, the square brackets, the backslash, the period, the
    comma, the semicolon, the colon, white space, the at sign and the
    double quote (code 34). *)
Definition is_email_atom (c : ascii) : bool :=
  negb (is_code 60 c || is_code 62 c || is_code 40 c || is_code 41 c || is_code 91 c || is_code 93 c
        || is_code 92 c || is_code 46 c || is_code 44 c || is_code 59 c || is_code 58 c
        || is_space c || is_code 64 c || is_code 34 c).

(** [[a-zA-Z\-0-9]] *)
Definition is_domain_label (c : ascii) : bool :=
  is_alpha c || is_code 45 c || is_digit c.

(** [toLowerCase] on one code unit below 256: A-Z, and the Latin-1
    capitals 192-222 other than the multiplication sign 215. *)
Definition to_lower (c : ascii) : ascii :=
  if is_upper c || (in_range 192 222 c && negb (is_code 215 c))
  then ascii_of_nat (code c + 32) else c.

End Chars.

Definition chars (s : string) : list ascii := list_ascii_of_string s.

Fixpoint toLowerCase (s : string) : string :=
  match s with
  | EmptyString => EmptyString
  | String c s' => String (Chars.to_lower c) (toLowerCase s')
  end.

(** [Array.prototype.includes] on an array of strings. *)
Fixpoint includes (l : list string) (x : string) : bool :=
  match l with
  | [] => false
  | y :: l' => String.eqb y x || includes l' x
  end.

(* ===================================================================== *)
(** * Regular expressions                                                 *)
(* ===================================================================== *)

Module Regex.

Inductive regex : Type :=
| Void
| Eps
| Chr (p : ascii -> bool)
| Seq (r1 r2 : regex)
| Alt (r1 r2 : regex)
| Star (r : regex).

(** [r+] *)
Definition Plus (r : regex) : regex := Seq r (Star r).

(** [r{0,n}] *)
Fixpoint UpTo (n : nat) (r : regex) : regex :=
  match n with
  | O => Eps
  | S k => Alt Eps (Seq r (UpTo k r))
  end.

(** [r{n}] followed by [k] *)
Fixpoint Times (n : nat) (r k : regex) : regex :=
  match n with
  | O => k
  | S m => Seq r (Times m r k)
  end.

(** [r{n,m}] for [n <= m] *)
Definition Between (n m : nat) (r : regex) : regex :=
  Times n r (UpTo (m - n) r).

(** [r{n,}] *)
Definition AtLeast (n : nat) (r : regex) : regex := Times n r (Star r).

Definition Lit (k : nat) : regex := Chr (Chars.is_code k).

Fixpoint nullable (r : regex) : bool :=
  match r with
  | Void => false
  | Eps => true
  | Chr _ => false
  | Seq r1 r2 => nullable r1 && nullable r2
  | Alt r1 r2 => nullable r1 || nullable r2
  | Star _ => true
  end.

Fixpoint deriv (c : ascii) (r : regex) : regex :=
  match r with
  | Void => Void
  | Eps => Void
  | Chr p => if p c then Eps else Void
  | Seq r1 r2 =>
      if nullable r1
      then Alt (Seq (deriv c r1) r2) (deriv c r2)
      else Seq (deriv c r1) r2
  | Alt r1 r2 => Alt (deriv c r1) (deriv c r2)
  | Star r1 => Seq (deriv c r1) (Star r1)
  end.

(** The whole of [s] is a word of [r]. *)
Fixpoint matches (r : regex) (s : list ascii) : bool :=
  match s with
  | [] => nullable r
  | c :: s' => matches (deriv c r) s'
  end.

(** The words of a regular expression. *)
Inductive Matches : regex -> list ascii -> Prop :=
| MEps : Matches Eps []
| MChr p c : p c = true -> Matches (Chr p) [c]
| MSeq r1 r2 s1 s2 :
    Matches r1 s1 -> Matches r2 s2 -> Matches (Seq r1 r2) (s1 ++ s2)
| MAltL r1 r2 s : Matches r1 s -> Matches (Alt r1 r2) s
| MAltR r1 r2 s : Matches r2 s -> Matches (Alt r1 r2) s
| MStarNil r : Matches (Star r) []
| MStarApp r s1 s2 :
    Matches r s1 -> Matches (Star r) s2 -> Matches (Star r) (s1 ++ s2).

End Regex.

Import Regex.

(** The [emailRegex] of [signup], between [^] and [$]: a local part, the
    at sign, and an address or a name.  The local part is either one or
    more atoms separated by single periods, an atom being one or more
    characters of [Chars.is_email_atom], or a double quote, one or more
    characters other than line terminators, and a double quote.  The
    address is four groups of one to three digits separated by periods,
    between square brackets; the name is one or more labels, each one or
    more letters, digits or hyphens followed by a period, and then two
    letters or more. *)
Definition emailRegex : regex :=
  let atom := Chr Chars.is_email_atom in
  let byte := Between 1 3 (Chr Chars.is_digit) in
  let local_part :=
    Alt (Seq (Plus atom) (Star (Seq (Lit 46) (Plus atom))))
        (Seq (Lit 34) (Seq (Plus (Chr Chars.is_dot)) (Lit 34))) in
  let address :=
    Seq (Lit 91)
      (Seq byte (Seq (Lit 46) (Seq byte (Seq (Lit 46)
         (Seq byte (Seq (Lit 46) (Seq byte (Lit 93)))))))) in
  let name :=
    Seq (Plus (Seq (Plus (Chr Chars.is_domain_label)) (Lit 46)))
        (AtLeast 2 (Chr Chars.is_alpha)) in
  Seq local_part (Seq (Lit 64) (Alt address name)).

Definition emailRegex_test (s : string) : bool := matches emailRegex (chars s).

(** [/^(?!.*\.\.)(?!.*\.$)[^\W][\w.]{0,29}$/]: the two negative lookaheads
    are tried at the start of the input, the first against a prefix of it
    and the second, which ends in [$], against the whole of it. *)
Definition usernameRegex_lookahead1 : regex :=
  Seq (Seq (Star (Chr Chars.is_dot)) (Seq (Lit 46) (Lit 46)))
      (Star (Chr Chars.is_any)).

Definition usernameRegex_lookahead2 : regex :=
  Seq (Star (Chr Chars.is_dot)) (Lit 46).

Definition usernameRegex_body : regex :=
  Seq (Chr Chars.is_word) (UpTo 29 (Chr Chars.is_word_or_period)).

Definition usernameRegex_test (s : string) : bool :=
  negb (matches usernameRegex_lookahead1 (chars s))
  && negb (matches usernameRegex_lookahead2 (chars s))
  && matches usernameRegex_body (chars s).

(* ===================================================================== *)
(** * Values, exceptions, promises                                        *)
(* ===================================================================== *)

(** The values that reach the context builder and the resolvers.  A
    [VModel] is a handle on a store collection (a Mongoose model). *)
#[warnings="-register-all"]
Inductive value : Type :=
| VUndefined
| VNull
| VBool (b : bool)
| VNumber (n : Z)
| VString (s : string)
| VObject (o : gmap string value)
| VModel (name : string).

(** ToBoolean *)
Definition truthy (v : value) : bool :=
  match v with
  | VUndefined | VNull => false
  | VBool b => b
  | VNumber n => negb (n =? 0)
  | VString s => negb (String.eqb s "")
  | VObject _ | VModel _ => true
  end.

(** An argument that the schema declares nullable: [None] when it is
    null or left out. *)
Definition truthy_arg (a : option string) : bool :=
  match a with
  | None => false
  | Some s => negb (String.eqb s "")
  end.

(** [v === s] for a string [s]. *)
Definition strict_eq_string (v : value) (s : string) : bool :=
  match v with
  | VString t => String.eqb t s
  | _ => false
  end.

Inductive exn : Type :=
| Err (name message : string)
| Thrown (v : value).

Definition Error (message : string) : exn := Err "Error" message.
Definition TypeError (message : string) : exn := Err "TypeError" message.
Definition SyntaxError (message : string) : exn := Err "SyntaxError" message.

(** The result of evaluating an expression that may throw. *)
Inductive completion (A : Type) : Type :=
| Normal (a : A)
| Abrupt (e : exn).
Arguments Normal {A} a.
Arguments Abrupt {A} e.

(** [v.k]: reading a property of undefined or null throws. *)
Definition prop (v : value) (k : string) : completion value :=
  match v with
  | VUndefined =>
      Abrupt (TypeError ("Cannot read property '" ++ k ++ "' of undefined"))
  | VNull =>
      Abrupt (TypeError ("Cannot read property '" ++ k ++ "' of null"))
  | VObject o => Normal (default VUndefined (o !! k))
  | _ => Normal VUndefined
  end.

(** [Object.assign(target, source)]: the properties of [source] are
    written over those of [target]. *)
Definition Object_assign (target source : gmap string value)
  : gmap string value := source ∪ target.

(** The state a promise ends in; [Pending] is a promise that is never
    settled. *)
Inductive outcome (A : Type) : Type :=
| Fulfilled (a : A)
| Rejected (e : exn)
| Pending.
Arguments Fulfilled {A} a.
Arguments Rejected {A} e.
Arguments Pending {A}.

(* ===================================================================== *)
(** * The user collection                                                 *)
(* ===================================================================== *)

Record Post : Type := {
  post_id : string;
  createdAt : Z;
}.

Module User.
Record doc : Type := {
  _id : string;
  fullName : string;
  email : string;
  username : string;
  password : string;
  isOnline : bool;
  passwordResetToken : option string;
  passwordResetTokenExpiry : option Z;
  posts : list Post;
}.

Definition set_isOnline (b : bool) (u : doc) : doc :=
  {| _id := _id u; fullName := fullName u; email := email u;
     username := username u; password := password u; isOnline := b;
     passwordResetToken := passwordResetToken u;
     passwordResetTokenExpiry := passwordResetTokenExpiry u;
     posts := posts u |}.

Definition set_posts (ps : list Post) (u : doc) : doc :=
  {| _id := _id u; fullName := fullName u; email := email u;
     username := username u; password := password u;
     isOnline := isOnline u;
     passwordResetToken := passwordResetToken u;
     passwordResetTokenExpiry := passwordResetTokenExpiry u;
     posts := ps |}.
End User.

(** The object handed to [new User(...)] by [signup]. *)
Record NewUser : Type := {
  new_fullName : string;
  new_email : string;
  new_username : string;
  new_password : string;
}.

(** The calls made to the outside, in the order they are made. *)
Inductive Op : Type :=
| OpFindOne
| OpFindOneAndUpdate
| OpFind
| OpSave (d : NewUser)
| OpVerify (token : value).

Definition is_write (o : Op) : bool :=
  match o with
  | OpFindOneAndUpdate | OpSave _ => true
  | _ => false
  end.

Definition is_store_access (o : Op) : bool :=
  match o with
  | OpVerify _ => false
  | _ => true
  end.

Record World : Type := {
  users : list User.doc;
  log : list Op;
  clock : Z;
}.

Definition record (o : Op) (w : World) : World :=
  {| users := users w; log := log w ++ [o]; clock := clock w |}.

Definition set_users (us : list User.doc) (w : World) : World :=
  {| users := us; log := log w; clock := clock w |}.

(** An asynchronous computation. *)
Definition M (A : Type) : Type := World -> outcome A * World.

Definition ret {A} (a : A) : M A := fun w => (Fulfilled a, w).
Definition throw {A} (e : exn) : M A := fun w => (Rejected e, w).
Definition never {A} : M A := fun w => (Pending, w).

(** [await] *)
Definition bind {A B} (m : M A) (k : A -> M B) : M B :=
  fun w =>
    match m w with
    | (Fulfilled a, w') => k a w'
    | (Rejected e, w') => (Rejected e, w')
    | (Pending, w') => (Pending, w')
    end.

Definition lift {A} (c : completion A) : M A :=
  match c with
  | Normal a => ret a
  | Abrupt e => throw e
  end.

Notation "'let*' x ':=' m 'in' k" := (bind m (fun x => k))
  (at level 10, x name, m at level 100, k at level 200).

(** [Date.now()] *)
Definition Date_now : M Z := fun w => (Fulfilled (clock w), w).

(** A field of a query compared with a value: only a string equal to the
    field matches (every document has the field, so null and undefined
    match none). *)
Definition field_is (q : value) (field : string) : bool := strict_eq_string q field.

Definition field_is_arg (q : option string) (field : string) : bool :=
  match q with
  | Some s => String.eqb s field
  | None => false
  end.

(** [User.findOne(query)]: the first document, in the order of the
    collection, that the query selects. *)
Definition User_findOne (q : User.doc -> bool) : M (option User.doc) :=
  fun w => (Fulfilled (List.find q (users w)), record OpFindOne w).

Fixpoint update_first (q : User.doc -> bool) (f : User.doc -> User.doc)
  (l : list User.doc) : list User.doc :=
  match l with
  | [] => []
  | u :: l' => if q u then f u :: l' else u :: update_first q f l'
  end.

(** [User.findOneAndUpdate(query, update)]: updates the first document
    that the query selects and, no option asking for the new one,
    answers the document as it was before the update. *)
Definition User_findOneAndUpdate (q : User.doc -> bool)
  (f : User.doc -> User.doc) : M (option User.doc) :=
  fun w =>
    (Fulfilled (List.find q (users w)),
     record OpFindOneAndUpdate (set_users (update_first q f (users w)) w)).

(** [User.find(query).limit(n)] *)
Definition User_find_limit (q : User.doc -> bool) (n : nat)
  : M (list User.doc) :=
  fun w => (Fulfilled (firstn n (List.filter q (users w))), record OpFind w).

Fixpoint insert_desc (p : Post) (l : list Post) : list Post :=
  match l with
  | [] => [p]
  | q :: l' =>
      if createdAt q <=? createdAt p then p :: l else q :: insert_desc p l'
  end.

Fixpoint sort_desc (l : list Post) : list Post :=
  match l with
  | [] => []
  | p :: l' => insert_desc p (sort_desc l')
  end.

(** [.populate({ path: 'posts', options: { sort: { createdAt: 'desc' } } })] *)
Definition populate_posts (u : User.doc) : User.doc :=
  User.set_posts (sort_desc (User.posts u)) u.

(* ===================================================================== *)
(** * What the program takes from its environment                         *)
(* ===================================================================== *)

(** The libraries and the configuration the program calls, and the
    helper [generateToken] of [utils/generate-token], which is not among
    the sources.
    - [SECRET] is [process.env.SECRET];
    - [jwt_verify token secret] is [jwt.verify], called without a
      callback: it returns the decoded payload or throws;
    - [bcrypt_compare password hash] is [bcrypt.compare], awaited: the
      answer of the comparison, or the error with which the promise is
      rejected, as it is for a password that is not a string; the
      password is [None] when it is null or left out;
    - [bcrypt_hash] is the hash that bcrypt takes of a password;
    - [RegExp pattern flags] is the constructor of regular expressions:
      [None] when it throws a syntax error, otherwise the test of a
      string against the expression;
    - [ObjectId] gives the identifier of a new document. *)
Class Env : Type := {
  SECRET : value;
  jwt_verify : value -> value -> completion value;
  bcrypt_compare : option string -> string -> completion bool;
  bcrypt_hash : string -> string;
  generateToken : User.doc -> value -> string -> string;
  RegExp : string -> string -> option (string -> bool);
  ObjectId : list User.doc -> string;
}.

Definition AUTH_TOKEN_EXPIRY : string := "1y".
Definition RESET_PASSWORD_TOKEN_EXPIRY : Z := 3600000.

Definition frontEndPages : list string :=
  ["forgot-password"; "reset-password"; "explore"; "people";
   "notifications"; "post"].

(** What the executor of a promise asks of the promise it is given. *)
Inductive settlement : Type :=
| Resolve (v : value)
| Reject (e : exn)
| Unsettled.

(** An [async] function used as executor.  Called by the constructor, it
    returns a promise of its own: when its body throws, that promise is
    rejected, nothing is thrown to the constructor, and neither [resolve]
    nor [reject] has been called. *)
Definition async_executor (body : completion settlement) : settlement :=
  match body with
  | Normal s => s
  | Abrupt _ => Unsettled
  end.

(** [new Promise(executor)] *)
Definition new_Promise (s : settlement) : M value :=
  match s with
  | Resolve v => ret v
  | Reject e => throw e
  | Unsettled => never
  end.

Record Request : Type := {
  headers : gmap string string;
}.

(** [req.headers.authorization] *)
Definition headers_authorization (req : Request) : value :=
  match headers req !! "authorization" with
  | Some s => VString s
  | None => VUndefined
  end.

Record Connection : Type := {
  connection_context : value;
}.

Section Program.

Context `{Env}.

(** ** The context builder *)

Definition checkAuthorization (token : value) : M value :=
  fun w =>
    new_Promise
      (async_executor
         match jwt_verify token SECRET with
         | Abrupt e => Abrupt e
         | Normal authUser =>
             if truthy authUser
             then Normal (Resolve authUser)
             else Normal
                    (Reject (Thrown (VString "Couldn't authenticate user")))
         end)
      (record (OpVerify token) w).

(** The [context] function that [createApolloServer] gives the server. *)
Definition context (models : gmap string value)
  (req : Request) (connection : option Connection) : M value :=
  match connection with
  | Some c => ret (connection_context c)
  | None =>
      let* authUser :=
        (if negb (strict_eq_string (headers_authorization req) "null")
         then
           let* user := checkAuthorization (headers_authorization req) in
           ret (if truthy user then user else VUndefined)
         else ret VUndefined) in
      ret (VObject (Object_assign {[ "authUser" := authUser ]} models))
  end.

(** ** Queries *)

Definition getAuthUser (authUser : value) : M (option User.doc) :=
  if negb (truthy authUser) then ret None
  else
    let* email := lift (prop authUser "email") in
    let* user :=
      User_findOneAndUpdate
        (fun u => field_is email (User.email u))
        (User.set_isOnline true) in
    ret (option_map populate_posts user).

(** The posts of the user found are populated as in [getAuthUser]; the
    author of a post is not part of the model of a post. *)
Definition getUser (username id : option string) : M User.doc :=
  if negb (truthy_arg username) && negb (truthy_arg id)
  then throw (Error "username or id is required params.")
  else if truthy_arg username && truthy_arg id
  then throw (Error "please pass only username or only id as a param")
  else
    let query :=
      if truthy_arg username
      then (fun u => field_is_arg username (User.username u))
      else (fun u => field_is_arg id (User._id u)) in
    let* user := User_findOne query in
    match option_map populate_posts user with
    | None => throw (Error "User with given params doesn't exists.")
    | Some user => ret user
    end.

(** [new RegExp(pattern, flags)] *)
Definition new_RegExp (pattern flags : string)
  : completion (string -> bool) :=
  match RegExp pattern flags with
  | Some test => Normal test
  | None =>
      Abrupt (SyntaxError ("Invalid regular expression: /" ++ pattern ++ "/"))
  end.

Definition searchUsers (searchQuery : option string) (authUser : value)
  : M (list User.doc) :=
  if negb (truthy_arg searchQuery) then ret []
  else
    let pattern := default "" searchQuery in
    let* by_username := lift (new_RegExp pattern "i") in
    let* by_fullName := lift (new_RegExp pattern "i") in
    let* own := lift (prop authUser "id") in
    User_find_limit
      (fun u =>
         (by_username (User.username u) || by_fullName (User.fullName u))
         && negb (field_is own (User._id u)))
      50.

Definition verifyResetPasswordToken (email : option string) (token : string)
  : M string :=
  let* now := Date_now in
  let* user :=
    User_findOne
      (fun u =>
         field_is_arg email (User.email u)
         && match User.passwordResetToken u with
            | Some t => String.eqb t token
            | None => false
            end
         && match User.passwordResetTokenExpiry u with
            | Some expiry => now - RESET_PASSWORD_TOKEN_EXPIRY <=? expiry
            | None => false
            end) in
  match user with
  | None => throw (Error "This token is either invalid or expired!")
  | Some _ => ret "Success"
  end.

(** ** Mutations *)

(** The password of [SignInInput] is nullable: [None] when it is null
    or left out. *)
Definition signin (emailOrUsername : string) (password : option string)
  : M string :=
  let* user :=
    User_findOne
      (fun u =>
         String.eqb (User.email u) emailOrUsername
         || String.eqb (User.username u) emailOrUsername) in
  match user with
  | None => throw (Error "User not found.")
  | Some user =>
      let* isValidPassword :=
        lift (bcrypt_compare password (User.password user)) in
      if negb isValidPassword then throw (Error "Invalid password.")
      else ret (generateToken user SECRET AUTH_TOKEN_EXPIRY)
  end.

(** Modelled from the spec: the constructor and the [save] of the User
    model, which are not among the sources.  The spec has the created
    user store a one-way hash of the password; the document is added
    at the end of the collection, offline, without reset token or
    posts. *)
Definition User_save (d : NewUser) : M User.doc :=
  fun w =>
    let u :=
      {| User._id := ObjectId (users w);
         User.fullName := new_fullName d;
         User.email := new_email d;
         User.username := new_username d;
         User.password := bcrypt_hash (new_password d);
         User.isOnline := false;
         User.passwordResetToken := None;
         User.passwordResetTokenExpiry := None;
         User.posts := [] |} in
    (Fulfilled u, record (OpSave d) (set_users (users w ++ [u]) w)).

Definition signup (fullName email username password : string) : M string :=
  let* user :=
    User_findOne
      (fun u =>
         String.eqb (User.email u) email
         || String.eqb (User.username u) username) in
  match user with
  | Some user =>
      let field :=
        if String.eqb (User.email user) email then "email" else "username" in
      throw (Error ("User with given " ++ field ++ " already exists."))
  | None =>
      if String.eqb fullName "" || String.eqb email ""
         || String.eqb username "" || String.eqb password ""
      then throw (Error "All fields are required.")
      else if Nat.ltb 40 (String.length fullName)
      then throw (Error "Full name no more than 40 characters.")
      else if Nat.ltb (String.length fullName) 4
      then throw (Error "Full name min 4 characters.")
      else if negb (emailRegex_test (toLowerCase email))
      then throw (Error "Enter a valid email address.")
      else if negb (usernameRegex_test username)
      then throw (Error
        "Usernames can only use letters, numbers, underscores and periods.")
      else if Nat.ltb 20 (String.length username)
      then throw (Error "Username no more than 50 characters.")
      else if Nat.ltb (String.length username) 3
      then throw (Error "Username min 3 characters.")
      else if includes frontEndPages username
      then throw (Error "This username isn't available. Please try another.")
      else if Nat.ltb (String.length password) 6
      then throw (Error "Password min 6 characters.")
      else
        let* newUser :=
          User_save {| new_fullName := fullName; new_email := email;
                       new_username := username;
                       new_password := password |} in
        ret (generateToken newUser SECRET AUTH_TOKEN_EXPIRY)
  end.

End Program.

(* ===================================================================== *)
(** * The specification's vocabulary                                      *)
(* ===================================================================== *)

(** The errors of the specification.  The program throws plain errors
    told apart by their messages; [error_kind] reads a thrown value as
    the specification names it.  The two messages about the length of a
    user name are counted with the one about its characters. *)
Inductive ErrorKind : Type :=
| InvalidArgument
| MissingField
| InvalidFullName
| InvalidEmail
| InvalidUsername
| UsernameUnavailable
| WeakPassword
| AlreadyExists (field : string)
| NotFound
| InvalidCredentials
| InvalidOrExpiredToken
| Unauthenticated
| Unclassified.

Definition error_kind (e : exn) : ErrorKind :=
  match e with
  | Thrown v =>
      if strict_eq_string v "Couldn't authenticate user"
      then Unauthenticated else Unclassified
  | Err name m =>
      if negb (String.eqb name "Error") then Unclassified
      else if String.eqb m "username or id is required params."
           || String.eqb m "please pass only username or only id as a param"
      then InvalidArgument
      else if String.eqb m "User with given params doesn't exists."
           || String.eqb m "User not found."
      then NotFound
      else if String.eqb m "This token is either invalid or expired!"
      then InvalidOrExpiredToken
      else if String.eqb m "Invalid password." then InvalidCredentials
      else if String.eqb m "User with given email already exists."
      then AlreadyExists "email"
      else if String.eqb m "User with given username already exists."
      then AlreadyExists "username"
      else if String.eqb m "All fields are required." then MissingField
      else if String.eqb m "Full name no more than 40 characters."
           || String.eqb m "Full name min 4 characters."
      then InvalidFullName
      else if String.eqb m "Enter a valid email address." then InvalidEmail
      else if String.eqb m
           "Usernames can only use letters, numbers, underscores and periods."
           || String.eqb m "Username no more than 50 characters."
           || String.eqb m "Username min 3 characters."
      then InvalidUsername
      else if String.eqb m "This username isn't available. Please try another."
      then UsernameUnavailable
      else if String.eqb m "Password min 6 characters." then WeakPassword
      else Unclassified
  end.

(** The pattern of a user name in the words of the specification: it
    starts with a word character, has no two periods in a row, does not
    end in a period, and is at most 30 word characters and periods. *)
Fixpoint has_consecutive_periods (l : list ascii) : bool :=
  match l with
  | [] => false
  | c1 :: l' =>
      match l' with
      | [] => false
      | c2 :: _ =>
          (Chars.is_period c1 && Chars.is_period c2)
          || has_consecutive_periods l'
      end
  end.

Fixpoint ends_in_period (l : list ascii) : bool :=
  match l with
  | [] => false
  | c :: l' =>
      match l' with
      | [] => Chars.is_period c
      | _ :: _ => ends_in_period l'
      end
  end.

Definition starts_with_word (l : list ascii) : bool :=
  match l with
  | [] => false
  | c :: _ => Chars.is_word c
  end.

Definition username_pattern (s : string) : bool :=
  starts_with_word (chars s)
  && negb (has_consecutive_periods (chars s))
  && negb (ends_in_period (chars s))
  && Nat.leb (String.length s) 30
  && forallb Chars.is_word_or_period (chars s).

(** The rules of sign-up in the order the specification lists them: the
    error of the first rule that the input breaks, if it breaks one. *)
Definition signup_first_violation (us : list User.doc)
  (fullName email username password : string) : option ErrorKind :=
  match List.find (fun u => String.eqb (User.email u) email
                          || String.eqb (User.username u) username) us with
  | Some u =>
      Some (AlreadyExists
              (if String.eqb (User.email u) email then "email" else "username"))
  | None =>
      if String.eqb fullName "" || String.eqb email ""
         || String.eqb username "" || String.eqb password ""
      then Some MissingField
      else if negb (Nat.leb 4 (String.length fullName)
                    && Nat.leb (String.length fullName) 40)
      then Some InvalidFullName
      else if negb (emailRegex_test (toLowerCase email))
      then Some InvalidEmail
      else if negb (username_pattern username)
      then Some InvalidUsername
      else if negb (Nat.leb 3 (String.length username)
                    && Nat.leb (String.length username) 20)
      then Some InvalidUsername
      else if includes frontEndPages username
      then Some UsernameUnavailable
      else if negb (Nat.leb 6 (String.length password))
      then Some WeakPassword
      else None
  end.

(** [p] occurs in [s], letters compared without their case. *)
Fixpoint prefix_ci (p s : list ascii) : bool :=
  match p, s with
  | [], _ => true
  | _ :: _, [] => false
  | a :: p', b :: s' =>
      Ascii.eqb (Chars.to_lower a) (Chars.to_lower b) && prefix_ci p' s'
  end.

Fixpoint occurs_ci (p s : list ascii) : bool :=
  prefix_ci p s
  || match s with
     | [] => false
     | _ :: s' => occurs_ci p s'
     end.

Definition contains_ci (s query : string) : bool :=
  occurs_ci (chars query) (chars s).


(* ===================================================================== *)
(** * A request from end to end                                           *)
(* ===================================================================== *)

Section Server.

Context `{Env}.

(** What the server that [createApolloServer] builds does with a
    request: it awaits the [context] function and calls the resolver
    with the context as its third argument, of which the resolver takes
    [authUser]. *)
Definition with_context {A : Type} (models : gmap string value)
  (req : Request) (connection : option Connection)
  (resolver : value -> M A) : M A :=
  let* ctx := context models req connection in
  let* authUser := lift (prop ctx "authUser") in
  resolver authUser.

End Server.

(** A run from [w] to [w'] that has left the collection and the clock
    alone and has called the store at most once, to read. *)
Definition reads_only (w w' : World) : Prop :=
  users w' = users w
  /\ clock w' = clock w
  /\ exists ops,
       log w' = (log w ++ ops)%list
       /\ (length ops <= 1)%nat
       /\ Forall (fun o => is_write o = false) ops.

(** A lower bound on the length of the words of an expression. *)
Fixpoint min_length (r : regex) : nat :=
  match r with
  | Void => 0
  | Eps => 0
  | Chr _ => 1
  | Seq r1 r2 => min_length r1 + min_length r2
  | Alt r1 r2 => Nat.min (min_length r1) (min_length r2)
  | Star _ => 0
  end.

(** The characters that the words of an expression are made of. *)
Fixpoint alphabet (r : regex) (c : ascii) : bool :=
  match r with
  | Void | Eps => false
  | Chr p => p c
  | Seq r1 r2 | Alt r1 r2 => alphabet r1 c || alphabet r2 c
  | Star r1 => alphabet r1 c
  end.

(** The local part and the domain of [emailRegex], on either side of
    the at sign. *)
Definition emailRegex_local : regex :=
  let atom := Chr Chars.is_email_atom in
  Alt (Seq (Plus atom) (Star (Seq (Lit 46) (Plus atom))))
      (Seq (Lit 34) (Seq (Plus (Chr Chars.is_dot)) (Lit 34))).

Definition emailRegex_domain : regex :=
  let byte := Between 1 3 (Chr Chars.is_digit) in
  Alt (Seq (Lit 91)
         (Seq byte (Seq (Lit 46) (Seq byte (Seq (Lit 46)
            (Seq byte (Seq (Lit 46) (Seq byte (Lit 93)))))))))
      (Seq (Plus (Seq (Plus (Chr Chars.is_domain_label)) (Lit 46)))
           (AtLeast 2 (Chr Chars.is_alpha))).

(* ===================================================================== *)
(** * An environment and a collection for the examples                    *)
(* ===================================================================== *)

Module Demo.

Definition is_syntax_char (c : ascii) : bool :=
  existsb (Ascii.eqb c) (chars "^$\.*+?()[]{}|").

(** A pattern made of ordinary characters and periods, each ordinary
    character standing for itself and each period for any character
    other than a line terminator. *)
Fixpoint compile (ignore_case : bool) (p : list ascii) : option regex :=
  match p with
  | [] => Some Eps
  | c :: p' =>
      match compile ignore_case p' with
      | None => None
      | Some r =>
          if Chars.is_period c then Some (Seq (Chr Chars.is_dot) r)
          else if is_syntax_char c then None
          else if ignore_case
          then Some (Seq (Chr (fun x => Ascii.eqb (Chars.to_lower x)
                                                  (Chars.to_lower c))) r)
          else Some (Seq (Chr (Ascii.eqb c)) r)
      end
  end.

(** The constructor of regular expressions on the patterns of
    [compile], with no flag or the flag [i]; the test looks for the
    pattern anywhere in the string.  The other patterns are outside
    this instance, which answers [None] for them. *)
Definition regexp (pattern flags : string) : option (string -> bool) :=
  if String.eqb flags "" || String.eqb flags "i" then
    match compile (String.eqb flags "i") (chars pattern) with
    | Some r =>
        Some (fun s =>
                matches (Seq (Star (Chr Chars.is_any))
                           (Seq r (Star (Chr Chars.is_any)))) (chars s))
    | None => None
    end
  else None.

Definition ann_claims : value :=
  VObject (<[ "id" := VString "u1" ]>
           (<[ "email" := VString "ann@example.com" ]>
            (<[ "fullName" := VString "Ann Lee" ]>
             (<[ "User" := VString "forged" ]> ∅)))).

(** A verifier that knows one token. *)
Definition verify (token secret : value) : completion value :=
  if strict_eq_string token "token-of-ann" then Normal ann_claims
  else Abrupt (Err "JsonWebTokenError" "jwt malformed").

Definition hash (password : string) : string := "$2a$" ++ password.

(** A password that is not a string is refused, as bcryptjs does. *)
Definition compare (password : option string) (hashed : string)
  : completion bool :=
  match password with
  | Some p => Normal (String.eqb (hash p) hashed)
  | None => Abrupt (Error "Illegal arguments: object, string")
  end.

Definition mint (u : User.doc) (secret : value) (expiresIn : string)
  : string := "jwt:" ++ User._id u ++ ":" ++ expiresIn.

Definition env : Env := {|
  SECRET := VString "secret";
  jwt_verify := verify;
  bcrypt_compare := compare;
  bcrypt_hash := hash;
  generateToken := mint;
  RegExp := regexp;
  ObjectId := fun us => "u" ++ pretty (S (length us));
|}.

Definition user (id name mail login pass : string) : User.doc :=
  {| User._id := id; User.fullName := name; User.email := mail;
     User.username := login; User.password := hash pass;
     User.isOnline := false;
     User.passwordResetToken := None;
     User.passwordResetTokenExpiry := None;
     User.posts := [] |}.

Definition ann : User.doc :=
  {| User._id := "u1"; User.fullName := "Ann Lee";
     User.email := "ann@example.com"; User.username := "ann.lee";
     User.password := hash "correct horse";
     User.isOnline := false;
     User.passwordResetToken := Some "r3s3t";
     User.passwordResetTokenExpiry := Some 1000000;
     User.posts := [ {| post_id := "p1"; createdAt := 10 |};
                     {| post_id := "p2"; createdAt := 30 |};
                     {| post_id := "p3"; createdAt := 20 |} ] |}.

Definition bob : User.doc := user "u2" "Bob Ray" "bob@example.com" "bob" "hunter22".

Definition cy : NewUser :=
  {| new_fullName := "Cy Young"; new_email := "cy@example.com";
     new_username := "cy.young"; new_password := "secret1" |}.

Definition world : World :=
  {| users := [ann; bob]; log := []; clock := 4000000 |}.

(** The same collection when the clock shows 4600000. *)
Definition later : World :=
  {| users := [ann; bob]; log := []; clock := 4600000 |}.

Definition models : gmap string value :=
  <[ "User" := VModel "User" ]> (<[ "Post" := VModel "Post" ]> ∅).

Definition request (authorization : string) : Request :=
  {| headers := <[ "authorization" := authorization ]> ∅ |}.

End Demo.

(* ===================================================================== *)
(** * The two expressions of sign-up on a few strings                     *)
(* ===================================================================== *)

Example emailRegex_ok : emailRegex_test "ann.lee@example.com" = true.
Proof. vm_compute. reflexivity. Qed.
Example emailRegex_ko : emailRegex_test "ann.lee@example" = false.
Proof. vm_compute. reflexivity. Qed.
Example emailRegex_ip : emailRegex_test "a@[10.0.0.1]" = true.
Proof. vm_compute. reflexivity. Qed.
Example usernameRegex_ok : usernameRegex_test "ann.lee_1" = true.
Proof. vm_compute. reflexivity. Qed.
Example usernameRegex_dots : usernameRegex_test "ann..lee" = false.
Proof. vm_compute. reflexivity. Qed.
Example usernameRegex_end : usernameRegex_test "ann." = false.
Proof. vm_compute. reflexivity. Qed.
Example usernameRegex_start : usernameRegex_test ".ann" = false.
Proof. vm_compute. reflexivity. Qed.
Example usernameRegex_30 :
  usernameRegex_test "abcdefghijabcdefghijabcdefghij" = true.
Proof. vm_compute. reflexivity. Qed.
Example usernameRegex_31 :
  usernameRegex_test "abcdefghijabcdefghijabcdefghijk" = false.
Proof. vm_compute. reflexivity. Qed.

Example emailRegex_case : emailRegex_test (toLowerCase "Ann@Example.COM") = true.
Proof. vm_compute. reflexivity. Qed.
Example emailRegex_two_periods : emailRegex_test "ann..lee@example.com" = false.
Proof. vm_compute. reflexivity. Qed.
Example emailRegex_space : emailRegex_test "ann lee@example.com" = false.
Proof. vm_compute. reflexivity. Qed.
Example emailRegex_short_name : emailRegex_test "ann@example.c" = false.
Proof. vm_compute. reflexivity. Qed.
Example emailRegex_long_byte : emailRegex_test "a@[1000.0.0.1]" = false.
Proof. vm_compute. reflexivity. Qed.

(* ===================================================================== *)
(** * The matcher and the words of a regular expression                   *)
(* ===================================================================== *)

Module RegexFacts.

Lemma nullable_Matches (r : regex) : nullable r = true <-> Matches r [].
Proof.
  split.
  - induction r; simpl; intros Hn; try discriminate.
    + constructor.
    + apply andb_true_iff in Hn as [H1 H2].
      change (@nil ascii) with (@nil ascii ++ [])%list. constructor; auto.
    + apply orb_true_iff in Hn as [H1 | H2];
        [apply MAltL | apply MAltR]; auto.
    + constructor.
  - intros Hm. remember (@nil ascii) as s eqn:Es.
    induction Hm; simpl; try discriminate; auto.
    + apply app_eq_nil in Es as [-> ->].
      rewrite IHHm1, IHHm2; auto.
    + rewrite IHHm; auto.
    + rewrite IHHm, orb_true_r; auto.
Qed.

Lemma Matches_Star_cons (r : regex) (c : ascii) (s : list ascii) :
  Matches (Star r) (c :: s) ->
  exists s1 s2,
    s = (s1 ++ s2)%list /\ Matches r (c :: s1) /\ Matches (Star r) s2.
Proof.
  intros Hm.
  remember (Star r) as r' eqn:Er. remember (c :: s) as s' eqn:Es.
  revert s Es.
  induction Hm as [| | | | | | r0 s1 s2 Hm1 IH1 Hm2 IH2];
    intros t Et; try discriminate.
  inversion Er; subst r0.
  destruct s1 as [| a s1]; simpl in Et.
  - apply IH2; auto.
  - inversion Et; subst. exists s1, s2. auto.
Qed.

Lemma deriv_Matches (r : regex) :
  forall c s, Matches (deriv c r) s <-> Matches r (c :: s).
Proof.
  induction r; intros c s; simpl.
  - split; inversion 1.
  - split; inversion 1.
  - destruct (p c) eqn:E; split; intros Hm; inversion Hm; subst.
    + constructor; auto.
    + constructor.
    + congruence.
  - assert (Hseq : Matches (Seq (deriv c r1) r2) s ->
                   Matches (Seq r1 r2) (c :: s)).
    { intros Hm. inversion Hm; subst.
      change (c :: s1 ++ s2)%list with ((c :: s1) ++ s2)%list.
      constructor; auto. apply IHr1; auto. }
    destruct (nullable r1) eqn:En; split; intros Hm.
    + inversion Hm; subst; auto.
      change (c :: s) with ([] ++ c :: s)%list. constructor.
      * apply nullable_Matches; auto.
      * apply IHr2; auto.
    + inversion Hm; subst.
      destruct s1 as [| a s1]; simpl in *; subst.
      * apply MAltR. apply IHr2; auto.
      * match goal with E : _ :: _ = _ :: _ |- _ => inversion E; subst end.
        apply MAltL. constructor; auto. apply IHr1; auto.
    + auto.
    + inversion Hm; subst.
      destruct s1 as [| a s1]; simpl in *; subst.
      * match goal with E : Matches r1 [] |- _ =>
          apply nullable_Matches in E; congruence end.
      * match goal with E : _ :: _ = _ :: _ |- _ => inversion E; subst end.
        constructor; auto. apply IHr1; auto.
  - split; intros Hm; inversion Hm; subst.
    + apply MAltL, IHr1; auto.
    + apply MAltR, IHr2; auto.
    + apply MAltL, IHr1; auto.
    + apply MAltR, IHr2; auto.
  - split; intros Hm.
    + inversion Hm; subst.
      change (c :: s1 ++ s2)%list with ((c :: s1) ++ s2)%list.
      constructor; auto. apply IHr; auto.
    + apply Matches_Star_cons in Hm as (s1 & s2 & -> & H1 & H2).
      constructor; auto. apply IHr; auto.
Qed.

(** The matcher decides the words of the expression. *)
Lemma matches_Matches (s : list ascii) :
  forall r, matches r s = true <-> Matches r s.
Proof.
  induction s as [| c s IH]; intros r; simpl.
  - apply nullable_Matches.
  - rewrite IH. apply deriv_Matches.
Qed.

Lemma Matches_Chr (p : ascii -> bool) (l : list ascii) :
  Matches (Chr p) l <-> exists c, l = [c] /\ p c = true.
Proof.
  split.
  - inversion 1; subst; eauto.
  - intros (c & -> & Hc). constructor; auto.
Qed.

Lemma Matches_Seq (r1 r2 : regex) (l : list ascii) :
  Matches (Seq r1 r2) l <->
  exists l1 l2, l = (l1 ++ l2)%list /\ Matches r1 l1 /\ Matches r2 l2.
Proof.
  split.
  - inversion 1; subst; eauto.
  - intros (l1 & l2 & -> & H1 & H2). constructor; auto.
Qed.

Lemma Matches_Alt (r1 r2 : regex) (l : list ascii) :
  Matches (Alt r1 r2) l <-> Matches r1 l \/ Matches r2 l.
Proof.
  split.
  - inversion 1; subst; auto.
  - intros [H1 | H2]; [apply MAltL | apply MAltR]; auto.
Qed.

Lemma Matches_Eps (l : list ascii) : Matches Eps l <-> l = [].
Proof.
  split.
  - inversion 1; auto.
  - intros ->. constructor.
Qed.

(** [p*] is the strings of characters of [p]. *)
Lemma Matches_Star_Chr (p : ascii -> bool) (l : list ascii) :
  Matches (Star (Chr p)) l <-> forallb p l = true.
Proof.
  split.
  - intros Hm. remember (Star (Chr p)) as r eqn:Er.
    induction Hm as [| | | | | | r0 s1 s2 Hm1 IH1 Hm2 IH2];
      try discriminate; auto.
    inversion Er; subst r0.
    apply Matches_Chr in Hm1 as (c & -> & Hc).
    simpl. rewrite Hc. auto.
  - induction l as [| c l IH]; simpl; intros Hl.
    + constructor.
    + apply andb_true_iff in Hl as [Hc Hl].
      change (c :: l) with ([c] ++ l)%list.
      constructor; auto. constructor; auto.
Qed.

(** [p{0,n}] is the strings of at most [n] characters of [p]. *)
Lemma Matches_UpTo_Chr (p : ascii -> bool) (n : nat) :
  forall l, Matches (UpTo n (Chr p)) l <->
            (length l <= n)%nat /\ forallb p l = true.
Proof.
  induction n as [| n IH]; intros l; simpl.
  - rewrite Matches_Eps. split.
    + intros ->. simpl. split; auto.
    + intros [Hl _]. destruct l; auto. simpl in Hl. lia.
  - rewrite Matches_Alt, Matches_Eps, Matches_Seq. split.
    + intros [-> | (l1 & l2 & -> & H1 & H2)].
      * simpl. split; [lia | auto].
      * apply Matches_Chr in H1 as (c & -> & Hc).
        apply IH in H2 as [Hn Hp]. simpl. rewrite Hc. split; [lia | auto].
    + intros [Hn Hp]. destruct l as [| c l]; auto.
      simpl in Hn, Hp. apply andb_true_iff in Hp as [Hc Hp].
      right. exists [c], l. split; auto. split.
      * constructor; auto.
      * apply IH. split; [lia | auto].
Qed.

End RegexFacts.

(* ===================================================================== *)
(** * The pattern of user names                                           *)
(* ===================================================================== *)

Module UsernameFacts.

Import RegexFacts.

Lemma length_chars (s : string) : length (chars s) = String.length s.
Proof. induction s as [| c s IH]; simpl; auto. Qed.

Lemma word_or_period_is_dot (c : ascii) :
  Chars.is_word_or_period c = true -> Chars.is_dot c = true.
Proof.
  destruct c as [[] [] [] [] [] [] [] []]; vm_compute; intros Hc;
    reflexivity || discriminate.
Qed.

Lemma forallb_word_or_period_is_dot (l : list ascii) :
  forallb Chars.is_word_or_period l = true ->
  forallb Chars.is_dot l = true.
Proof.
  induction l as [| c l IH]; simpl; auto.
  intros Hl. apply andb_true_iff in Hl as [Hc Hl].
  rewrite (word_or_period_is_dot c Hc). auto.
Qed.

Lemma periods_app (pre post : list ascii) (c1 c2 : ascii) :
  Chars.is_period c1 = true -> Chars.is_period c2 = true ->
  has_consecutive_periods (pre ++ c1 :: c2 :: post) = true.
Proof.
  intros H1 H2. induction pre as [| a pre IH].
  - simpl. rewrite H1, H2. auto.
  - change ((a :: pre) ++ c1 :: c2 :: post)%list
      with (a :: (pre ++ c1 :: c2 :: post))%list.
    simpl. destruct (pre ++ c1 :: c2 :: post)%list as [| b t] eqn:E.
    + destruct pre; discriminate.
    + rewrite IH. apply orb_true_r.
Qed.

Lemma periods_split (l : list ascii) :
  has_consecutive_periods l = true ->
  exists pre c1 c2 post,
    l = (pre ++ c1 :: c2 :: post)%list
    /\ Chars.is_period c1 = true /\ Chars.is_period c2 = true.
Proof.
  induction l as [| a l IH]; simpl; try discriminate.
  destruct l as [| b t]; try discriminate.
  intros Hl. apply orb_true_iff in Hl as [Hab | Hl].
  - apply andb_true_iff in Hab as [Ha Hb].
    exists [], a, b, t. auto.
  - destruct (IH Hl) as (pre & c1 & c2 & post & E & H1 & H2).
    exists (a :: pre), c1, c2, post. rewrite E. auto.
Qed.

Lemma last_period_app (pre : list ascii) (c : ascii) :
  ends_in_period (pre ++ [c]) = Chars.is_period c.
Proof.
  induction pre as [| a pre IH]; simpl; auto.
  destruct (pre ++ [c])%list eqn:E; auto.
  destruct pre; discriminate.
Qed.

Lemma last_period_split (l : list ascii) :
  ends_in_period l = true ->
  exists pre c, l = (pre ++ [c])%list /\ Chars.is_period c = true.
Proof.
  induction l as [| a l IH]; simpl; try discriminate.
  destruct l as [| b t].
  - intros Ha. exists [], a. auto.
  - intros Hl. destruct (IH Hl) as (pre & c & E & Hc).
    exists (a :: pre), c. rewrite E. auto.
Qed.

(** The first lookahead finds two periods in a row. *)
Lemma lookahead1_periods (l : list ascii) :
  forallb Chars.is_dot l = true ->
  matches usernameRegex_lookahead1 l = has_consecutive_periods l.
Proof.
  intros Hdot. apply eq_true_iff_eq. rewrite matches_Matches.
  unfold usernameRegex_lookahead1, Lit. split.
  - intros Hm.
    apply Matches_Seq in Hm as (l1 & post & -> & Hm & _).
    apply Matches_Seq in Hm as (pre & l2 & -> & _ & Hm).
    apply Matches_Seq in Hm as (a & b & -> & Ha & Hb).
    apply Matches_Chr in Ha as (c1 & -> & H1).
    apply Matches_Chr in Hb as (c2 & -> & H2).
    rewrite <- !app_assoc. simpl. apply periods_app; auto.
  - intros Hl.
    apply periods_split in Hl as (pre & c1 & c2 & post & -> & H1 & H2).
    rewrite forallb_app in Hdot. apply andb_true_iff in Hdot as [Hpre _].
    change (pre ++ c1 :: c2 :: post)%list
      with (pre ++ ([c1] ++ [c2]) ++ post)%list.
    rewrite app_assoc.
    constructor.
    + constructor.
      * apply Matches_Star_Chr; auto.
      * constructor; constructor; auto.
    + apply Matches_Star_Chr. apply forallb_forall. auto.
Qed.

(** The second lookahead finds a period at the end. *)
Lemma lookahead2_period (l : list ascii) :
  forallb Chars.is_dot l = true ->
  matches usernameRegex_lookahead2 l = ends_in_period l.
Proof.
  intros Hdot. apply eq_true_iff_eq. rewrite matches_Matches.
  unfold usernameRegex_lookahead2, Lit. split.
  - intros Hm.
    apply Matches_Seq in Hm as (pre & l2 & -> & _ & Hm).
    apply Matches_Chr in Hm as (c & -> & Hc).
    rewrite last_period_app. auto.
  - intros Hl. apply last_period_split in Hl as (pre & c & -> & Hc).
    rewrite forallb_app in Hdot. apply andb_true_iff in Hdot as [Hpre _].
    constructor.
    + apply Matches_Star_Chr; auto.
    + constructor; auto.
Qed.

(** The body is a word character and at most 29 word characters and
    periods. *)
Lemma body_shape (l : list ascii) :
  matches usernameRegex_body l
  = starts_with_word l && Nat.leb (length l) 30
    && forallb Chars.is_word_or_period l.
Proof.
  apply eq_true_iff_eq. rewrite matches_Matches.
  unfold usernameRegex_body. rewrite Matches_Seq. split.
  - intros (l1 & l2 & -> & H1 & H2).
    apply Matches_Chr in H1 as (c & -> & Hc).
    apply Matches_UpTo_Chr in H2 as [Hn Hp].
    simpl. unfold Chars.is_word_or_period at 1. rewrite Hc, Hp. simpl.
    rewrite andb_true_r. apply Nat.leb_le. lia.
  - intros Hl. destruct l as [| c l]; simpl in Hl; try discriminate.
    apply andb_true_iff in Hl as [Hl Hp].
    apply andb_true_iff in Hl as [Hc Hn].
    apply andb_true_iff in Hp as [_ Hp].
    exists [c], l. split; auto. split.
    + constructor; auto.
    + apply Matches_UpTo_Chr. split; auto.
      apply Nat.leb_le in Hn. exact Hn.
Qed.

(** The test of [usernameRegex] is the pattern the specification
    describes. *)
Lemma usernameRegex_test_pattern (s : string) :
  usernameRegex_test s = username_pattern s.
Proof.
  unfold usernameRegex_test, username_pattern.
  rewrite body_shape, <- length_chars.
  destruct (forallb Chars.is_word_or_period (chars s)) eqn:Hp.
  - rewrite lookahead1_periods, lookahead2_period
      by (apply forallb_word_or_period_is_dot; auto).
    destruct (starts_with_word (chars s)),
      (has_consecutive_periods (chars s)), (ends_in_period (chars s)),
      (Nat.leb (length (chars s)) 30); reflexivity.
  - rewrite !andb_false_r. reflexivity.
Qed.

End UsernameFacts.

(* ===================================================================== *)
(** * The collection: finding, updating, populating                       *)
(* ===================================================================== *)

Module StoreFacts.



Lemma find_none_iff (q : User.doc -> bool) (l : list User.doc) :
  List.find q l = None <-> forall u, In u l -> q u = false.
Proof.
  split.
  - apply find_none.
  - induction l as [| a l IH]; simpl; auto.
    intros Hall. rewrite (Hall a) by auto. apply IH. auto.
Qed.

Lemma In_firstn {A : Type} (n : nat) (l : list A) (x : A) :
  In x (firstn n l) -> In x l.
Proof.
  intros Hx. rewrite <- (firstn_skipn n l). apply in_or_app. auto.
Qed.





End StoreFacts.

(* ===================================================================== *)
(** * Queries                                                             *)
(* ===================================================================== *)


Lemma getUser_lookup (q : User.doc -> bool) (w : World) :
  (let* user := User_findOne q in
   match option_map populate_posts user with
   | None => throw (Error "User with given params doesn't exists.")
   | Some user => ret user
   end) w
  = match List.find q (users w) with
    | Some u => (Fulfilled (populate_posts u), record OpFindOne w)
    | None =>
        (Rejected (Error "User with given params doesn't exists."),
         record OpFindOne w)
    end.
Proof.
  unfold bind, User_findOne. destruct (List.find q (users w)); reflexivity.
Qed.

(** C6, as the program has it.  An argument counts as supplied when it
    is neither null, nor left out, nor the empty string.  [getUser]
    fails with InvalidArgument, without a call to the store, when both
    arguments are supplied and when neither is; when exactly one is, it
    looks the user up by that field, fails with NotFound when the
    collection has no such user, and otherwise answers the first such
    user, posts populated. *)
Theorem getUser_contract (username id : option string) (w : World) :
  (truthy_arg username = truthy_arg id ->
   exists e,
     getUser username id w = (Rejected e, w)
     /\ error_kind e = InvalidArgument)
  /\ (forall name,
        username = Some name -> name <> "" -> truthy_arg id = false ->
        match List.find (fun u => String.eqb name (User.username u))
                (users w) with
        | Some u =>
            User.username u = name
            /\ getUser username id w
               = (Fulfilled (populate_posts u), record OpFindOne w)
        | None =>
            (forall u, In u (users w) -> User.username u <> name)
            /\ exists e,
                 getUser username id w = (Rejected e, record OpFindOne w)
                 /\ error_kind e = NotFound
        end)
  /\ (forall key,
        id = Some key -> key <> "" -> truthy_arg username = false ->
        match List.find (fun u => String.eqb key (User._id u))
                (users w) with
        | Some u =>
            User._id u = key
            /\ getUser username id w
               = (Fulfilled (populate_posts u), record OpFindOne w)
        | None =>
            (forall u, In u (users w) -> User._id u <> key)
            /\ exists e,
                 getUser username id w = (Rejected e, record OpFindOne w)
                 /\ error_kind e = NotFound
        end).
Proof.
  assert (Hne : forall x : string, x <> "" -> truthy_arg (Some x) = true).
  { intros x Hx. simpl. apply String.eqb_neq in Hx. rewrite Hx. reflexivity. }
  assert (Hfound : forall (a : string) (f : User.doc -> string) u,
             List.find (fun u => String.eqb a (f u)) (users w) = Some u ->
             f u = a).
  { intros a f u Hu. apply find_some in Hu as [_ Hu].
    apply String.eqb_eq in Hu. auto. }
  assert (Hnone : forall (a : string) (f : User.doc -> string),
             List.find (fun u => String.eqb a (f u)) (users w) = None ->
             forall u, In u (users w) -> f u <> a).
  { intros a f Hn u Hu Hfu.
    apply (find_none _ _ Hn) in Hu. simpl in Hu.
    rewrite Hfu, String.eqb_refl in Hu. discriminate. }
  split; [| split].
  - intros Heq. unfold getUser. rewrite Heq.
    destruct (truthy_arg id); simpl.
    + eexists. split; reflexivity.
    + eexists. split; reflexivity.
  - intros name -> Hname Hid. unfold getUser.
    rewrite (Hne name Hname), Hid. cbn [negb andb].
    rewrite getUser_lookup.
    change (fun u => field_is_arg (Some name) (User.username u))
      with (fun u => String.eqb name (User.username u)).
    destruct (List.find _ (users w)) as [u |] eqn:Efind.
    + split; [apply (Hfound name User.username); auto | reflexivity].
    + split; [apply (Hnone name User.username); auto |].
      eexists. split; reflexivity.
  - intros key -> Hkey Hname. unfold getUser.
    rewrite (Hne key Hkey), Hname. cbn [negb andb].
    rewrite getUser_lookup.
    change (fun u => field_is_arg (Some key) (User._id u))
      with (fun u => String.eqb key (User._id u)).
    destruct (List.find _ (users w)) as [u |] eqn:Efind.
    + split; [apply (Hfound key User._id); auto | reflexivity].
    + split; [apply (Hnone key User._id); auto |].
      eexists. split; reflexivity.
Qed.

Lemma reset_token_query (email : option string) (token : string) (now : Z)
  (u : User.doc) :
  field_is_arg email (User.email u)
  && match User.passwordResetToken u with
     | Some t => String.eqb t token
     | None => false
     end
  && match User.passwordResetTokenExpiry u with
     | Some expiry => now - RESET_PASSWORD_TOKEN_EXPIRY <=? expiry
     | None => false
     end = true
  <-> email = Some (User.email u)
      /\ User.passwordResetToken u = Some token
      /\ exists expiry,
           User.passwordResetTokenExpiry u = Some expiry
           /\ now - 3600000 <= expiry.
Proof.
  rewrite !andb_true_iff. unfold field_is_arg, RESET_PASSWORD_TOKEN_EXPIRY.
  destruct email as [e |], (User.passwordResetToken u) as [t |],
    (User.passwordResetTokenExpiry u) as [x |];
    rewrite ?String.eqb_eq, ?Z.leb_le; split;
    try (intros [[? ?] ?]; discriminate);
    try (intros (? & ? & ? & ? & ?); discriminate);
    try (intros (? & ? & ?); discriminate).
  - intros [[-> ->] Hx]. eauto.
  - intros (He & Ht & y & Hy & Hle).
    inversion He; inversion Ht; inversion Hy; subst. auto.
Qed.

(** C9.  [verifyResetPasswordToken] acknowledges success exactly when
    some stored user has the given email, a reset token equal to the
    given one, and a reset-token expiry no earlier than 3600000 ms before
    the current time; in every other case it fails with
    InvalidOrExpiredToken. *)
Theorem verifyResetPasswordToken_contract (email : option string)
  (token : string) (w : World) :
  (fst (verifyResetPasswordToken email token w) = Fulfilled "Success"
   <-> exists u,
         In u (users w)
         /\ email = Some (User.email u)
         /\ User.passwordResetToken u = Some token
         /\ exists expiry,
              User.passwordResetTokenExpiry u = Some expiry
              /\ clock w - 3600000 <= expiry)
  /\ (fst (verifyResetPasswordToken email token w) = Fulfilled "Success"
      \/ exists e,
           fst (verifyResetPasswordToken email token w) = Rejected e
           /\ error_kind e = InvalidOrExpiredToken).
Proof.
  unfold verifyResetPasswordToken, bind, Date_now, User_findOne.
  match goal with
  | |- context [List.find ?q (users w)] =>
      destruct (List.find q (users w)) as [u |] eqn:Efind
  end; cbn [fst].
  - split; [| left; reflexivity]. split; auto. intros _.
    apply find_some in Efind as [Hin Hq].
    apply reset_token_query in Hq. exists u. auto.
  - split.
    + split; [discriminate |]. intros (u & Hin & Hu).
      apply (find_none _ _ Efind) in Hin.
      apply (reset_token_query email token (clock w) u) in Hu.
      simpl in Hin, Hu. congruence.
    + right. eexists. split; reflexivity.
Qed.

Section SearchProperties.

Context `{Env}.

(** C7, as the program has it.  [searchUsers] answers the empty
    sequence, without a call to the store, when [searchQuery] is empty
    or absent.  For a non-empty [searchQuery] that the constructor of
    regular expressions accepts, and a caller whose [id] can be read,
    it answers at most 50 stored users, each with a user name or a full
    name that the query matches as a regular expression with the flag
    [i], and none with the caller's own id.  A non-empty [searchQuery]
    that the constructor refuses makes the query fail before the store
    is called. *)
Theorem searchUsers_contract (searchQuery : option string)
  (authUser : value) (w : World) :
  (truthy_arg searchQuery = false ->
   searchUsers searchQuery authUser w = (Fulfilled [], w))
  /\ (forall q test own,
        searchQuery = Some q -> q <> "" ->
        RegExp q "i" = Some test ->
        prop authUser "id" = Normal own ->
        exists found,
          searchUsers searchQuery authUser w
          = (Fulfilled found, record OpFind w)
          /\ (length found <= 50)%nat
          /\ Forall (fun u =>
                       In u (users w)
                       /\ (test (User.username u) = true
                           \/ test (User.fullName u) = true)
                       /\ own <> VString (User._id u)) found)
  /\ (forall q,
        searchQuery = Some q -> q <> "" ->
        RegExp q "i" = None ->
        exists m,
          searchUsers searchQuery authUser w = (Rejected (SyntaxError m), w)).
Proof.
  split; [| split].
  - intros Hq. unfold searchUsers. rewrite Hq. reflexivity.
  - intros q test own -> Hq Hre Hown.
    unfold searchUsers, bind, lift, new_RegExp, User_find_limit, ret.
    cbn [truthy_arg]. apply String.eqb_neq in Hq. rewrite Hq.
    cbn [negb default from_option id]. rewrite Hre, Hown.
    eexists. split; [reflexivity |]. split.
    + apply firstn_le_length.
    + apply Forall_forall. intros u Hu.
      apply list_elem_of_In, StoreFacts.In_firstn, filter_In in Hu
        as [Hin Hu].
      apply andb_true_iff in Hu as [Hm Hne].
      apply orb_true_iff in Hm.
      split; auto. split; auto.
      intros ->. simpl in Hne. rewrite String.eqb_refl in Hne.
      discriminate.
  - intros q -> Hq Hre.
    unfold searchUsers, bind, lift, new_RegExp, throw.
    cbn [truthy_arg]. apply String.eqb_neq in Hq. rewrite Hq.
    cbn [negb default from_option id]. rewrite Hre.
    eexists. reflexivity.
Qed.

(** C10.  With a non-empty [searchQuery] and no [authUser] (undefined
    or null), [searchUsers] fails and never reaches the store: when the
    query is accepted as a regular expression the failure is the type
    error of reading [id] from the absent [authUser], and otherwise it
    is the syntax error of the query. *)
Theorem searchUsers_unauthenticated (q : string) (authUser : value)
  (w : World) :
  q <> "" ->
  authUser = VUndefined \/ authUser = VNull ->
  exists e,
    searchUsers (Some q) authUser w = (Rejected e, w)
    /\ (RegExp q "i" <> None -> exists m, e = TypeError m).
Proof.
  intros Hq Habsent.
  unfold searchUsers, bind, lift, new_RegExp, ret, throw.
  cbn [truthy_arg]. apply String.eqb_neq in Hq. rewrite Hq.
  cbn [negb default from_option id].
  destruct (RegExp q "i") as [test |].
  - destruct Habsent as [-> | ->]; simpl;
      (eexists; split; [reflexivity | eauto]).
  - eexists. split; [reflexivity |]. intros Hn. congruence.
Qed.

End SearchProperties.

(* ===================================================================== *)
(** * Mutations                                                           *)
(* ===================================================================== *)

(** One case for each elementary test of [signup], in the order of the
    program; [close] ends the cases in which a rule is broken. *)
Ltac signup_case b close :=
  destruct b; cbn [negb andb orb]; try solve [close].

Ltac signup_cases fullName email username password close :=
  signup_case (String.eqb fullName "") close;
  signup_case (String.eqb email "") close;
  signup_case (String.eqb username "") close;
  signup_case (String.eqb password "") close;
  signup_case (Nat.ltb 40 (String.length fullName)) close;
  signup_case (Nat.ltb (String.length fullName) 4) close;
  signup_case (emailRegex_test (toLowerCase email)) close;
  signup_case (username_pattern username) close;
  signup_case (Nat.ltb 20 (String.length username)) close;
  signup_case (Nat.ltb (String.length username) 3) close;
  signup_case (includes frontEndPages username) close;
  signup_case (Nat.ltb (String.length password) 6) close.

Section MutationProperties.

Context `{Env}.

(** C5, as the program has it.  When no stored user has an email or a
    user name equal to [emailOrUsername], [signin] fails with NotFound.
    Otherwise, with [u] the first such user, [bcrypt_compare] decides on
    [password] and the stored hash of [u]: when it answers true, the
    result is the token that [generateToken] mints for [u] with the
    expiry of one year; when it answers false, the failure is
    InvalidCredentials; and when it rejects, which it does for a
    password that is null or left out, [signin] fails with the error of
    [bcrypt_compare] and not with InvalidCredentials, although no
    password was verified. *)
Theorem signin_contract (emailOrUsername : string) (password : option string)
  (w : World) :
  ((~ exists u,
        In u (users w)
        /\ (User.email u = emailOrUsername
            \/ User.username u = emailOrUsername)) ->
   signin emailOrUsername password w
   = (Rejected (Error "User not found."), record OpFindOne w)
   /\ error_kind (Error "User not found.") = NotFound)
  /\ (forall u,
        List.find (fun u => String.eqb (User.email u) emailOrUsername
                          || String.eqb (User.username u) emailOrUsername)
          (users w) = Some u ->
        In u (users w)
        /\ (User.email u = emailOrUsername
            \/ User.username u = emailOrUsername)
        /\ match bcrypt_compare password (User.password u) with
           | Normal true =>
               signin emailOrUsername password w
               = (Fulfilled (generateToken u SECRET "1y"),
                  record OpFindOne w)
           | Normal false =>
               signin emailOrUsername password w
               = (Rejected (Error "Invalid password."), record OpFindOne w)
               /\ error_kind (Error "Invalid password.")
                  = InvalidCredentials
           | Abrupt e =>
               signin emailOrUsername password w
               = (Rejected e, record OpFindOne w)
           end).
Proof.
  unfold signin, bind, User_findOne, AUTH_TOKEN_EXPIRY.
  destruct (List.find _ (users w)) as [u |] eqn:Efind.
  - pose proof (find_some _ _ Efind) as [Hin Hu].
    apply orb_true_iff in Hu. rewrite !String.eqb_eq in Hu.
    split.
    + intros Hno. exfalso. apply Hno. exists u. auto.
    + intros u' Eu. inversion Eu; subst u'.
      split; [exact Hin |]. split; [exact Hu |].
      destruct (bcrypt_compare password (User.password u)) as [[|] | e];
        simpl; auto.
  - split; [| discriminate]. intros _. split; reflexivity.
Qed.

(** C1, as the program has it.  For every input that breaks no rule of
    sign-up, the object that [signup] hands to the User model carries
    the four fields as supplied, the password among them; the hash is
    taken by the save of the model, so that the document added to the
    collection stores the hash of the password, and the token answered
    is minted for that document with the expiry of one year. *)
Theorem signup_creates_user (fullName email username password : string)
  (w : World) :
  signup_first_violation (users w) fullName email username password = None ->
  exists u,
    signup fullName email username password w
    = (Fulfilled (generateToken u SECRET "1y"),
       record (OpSave {| new_fullName := fullName; new_email := email;
                         new_username := username;
                         new_password := password |})
         (set_users (users w ++ [u]) (record OpFindOne w)))
    /\ User.password u = bcrypt_hash password
    /\ User.fullName u = fullName
    /\ User.email u = email
    /\ User.username u = username.
Proof.
  unfold signup_first_violation, signup, bind, User_findOne.
  destruct (List.find _ (users w)) as [u |] eqn:Efind; try discriminate.
  rewrite UsernameFacts.usernameRegex_test_pattern.
  rewrite !(Nat.leb_antisym (String.length _)).
  rewrite !(Nat.leb_antisym _ (String.length _)).
  signup_cases fullName email username password
    ltac:(intros Hd; discriminate Hd).
  intros _. eexists. split; [reflexivity |]. simpl. auto.
Qed.

(** C2.  [signup] checks its rules in the order the specification
    lists them: whenever the input breaks a rule, it fails with the
    error of the first rule broken, having only read the collection;
    when the input breaks none, it succeeds. *)
Theorem signup_rules_in_order (fullName email username password : string)
  (w : World) :
  match signup_first_violation (users w) fullName email username password
  with
  | Some kind =>
      exists e,
        signup fullName email username password w
        = (Rejected e, record OpFindOne w)
        /\ error_kind e = kind
  | None =>
      exists token w',
        signup fullName email username password w = (Fulfilled token, w')
  end.
Proof.
  unfold signup_first_violation, signup, bind, User_findOne.
  destruct (List.find _ (users w)) as [u |] eqn:Efind.
  - destruct (String.eqb (User.email u) email);
      eexists; split; reflexivity.
  - rewrite UsernameFacts.usernameRegex_test_pattern.
    rewrite !(Nat.leb_antisym (String.length _)).
    rewrite !(Nat.leb_antisym _ (String.length _)).
    signup_cases fullName email username password
      ltac:(eexists; split; reflexivity).
    eexists. eexists. reflexivity.
Qed.

End MutationProperties.

(* ===================================================================== *)
(** * The context builder                                                 *)
(* ===================================================================== *)

Section ContextProperties.

Context `{Env}.

(** The context of a persistent connection is answered as it is, and
    nothing is verified. *)
Lemma context_connection (models : gmap string value) (req : Request)
  (c : Connection) (w : World) :
  context models req (Some c) w = (Fulfilled (connection_context c), w).
Proof. reflexivity. Qed.

(** With the credential [null], spelled as a string, nothing is
    verified and [authUser] is undefined. *)
Lemma context_no_credential (models : gmap string value) (req : Request)
  (w : World) :
  headers req !! "authorization" = Some "null" ->
  context models req None w
  = (Fulfilled
       (VObject (Object_assign {[ "authUser" := VUndefined ]} models)),
     w).
Proof.
  intros Hh. unfold context, headers_authorization. rewrite Hh.
  reflexivity.
Qed.

(** Any other credential is verified, and a payload that is truthy
    becomes [authUser]. *)
Lemma context_verified (models : gmap string value) (req : Request)
  (w : World) (claims : value) :
  strict_eq_string (headers_authorization req) "null" = false ->
  jwt_verify (headers_authorization req) SECRET = Normal claims ->
  truthy claims = true ->
  context models req None w
  = (Fulfilled (VObject (Object_assign {[ "authUser" := claims ]} models)),
     record (OpVerify (headers_authorization req)) w).
Proof.
  intros Hn Hv Ht.
  unfold context, bind, checkAuthorization, async_executor, new_Promise.
  rewrite Hn, Hv, Ht. cbn [negb ret]. rewrite Ht. reflexivity.
Qed.

(** A payload that is falsy makes the executor call [reject]. *)
Lemma context_falsy_payload (models : gmap string value) (req : Request)
  (w : World) (payload : value) :
  strict_eq_string (headers_authorization req) "null" = false ->
  jwt_verify (headers_authorization req) SECRET = Normal payload ->
  truthy payload = false ->
  context models req None w
  = (Rejected (Thrown (VString "Couldn't authenticate user")),
     record (OpVerify (headers_authorization req)) w).
Proof.
  intros Hn Hv Ht.
  unfold context, bind, checkAuthorization, async_executor, new_Promise.
  rewrite Hn, Hv, Ht. reflexivity.
Qed.

(** C3, the third case as the program has it.  When the credential is
    not the string [null] and [jwt_verify] refuses it, which it does by
    throwing, the verification has been called but the promise of the
    context is never settled: the request gets neither a context nor an
    error. *)
Theorem context_verification_throws (models : gmap string value)
  (req : Request) (w : World) (e : exn) :
  strict_eq_string (headers_authorization req) "null" = false ->
  jwt_verify (headers_authorization req) SECRET = Abrupt e ->
  context models req None w
  = (Pending, record (OpVerify (headers_authorization req)) w).
Proof.
  intros Hn Hv.
  unfold context, bind, checkAuthorization, async_executor, new_Promise.
  rewrite Hn, Hv. reflexivity.
Qed.

(** C4.  For every payload [claims] that the verification answers and
    every [models], the context maps each name of [models] to the
    handle that [models] gives it; a key other than [authUser] is in
    the context exactly as it is in [models], whatever the fields of
    [claims]; and [claims] is the value of [authUser] unless [models]
    has that name itself. *)
Theorem context_store_handles (models : gmap string value) (req : Request)
  (w : World) (claims : value) :
  strict_eq_string (headers_authorization req) "null" = false ->
  jwt_verify (headers_authorization req) SECRET = Normal claims ->
  truthy claims = true ->
  exists ctx,
    context models req None w
    = (Fulfilled (VObject ctx),
       record (OpVerify (headers_authorization req)) w)
    /\ (forall name handle,
          models !! name = Some handle -> ctx !! name = Some handle)
    /\ (forall key, key <> "authUser" -> ctx !! key = models !! key)
    /\ (models !! "authUser" = None -> ctx !! "authUser" = Some claims).
Proof.
  intros Hn Hv Ht.
  exists (Object_assign {[ "authUser" := claims ]} models).
  split; [apply context_verified; auto |].
  unfold Object_assign. split; [| split].
  - intros name handle Hm. apply lookup_union_Some_l. auto.
  - intros key Hk. destruct (models !! key) as [h |] eqn:Em.
    + apply lookup_union_Some_l. auto.
    + rewrite lookup_union_r by auto.
      apply lookup_singleton_ne. auto.
  - intros Hm. rewrite lookup_union_r by auto.
    apply lookup_singleton_eq.
Qed.

End ContextProperties.

(* ===================================================================== *)
(** * The theorems at work on the example collection                      *)
(* ===================================================================== *)

Section Examples.

#[local] Existing Instance Demo.env.

(** The input breaks no rule, and the object handed to the model has
    the password as it was typed, which is not its hash. *)
Lemma signup_hands_over_plaintext :
  signup_first_violation (users Demo.world)
    "Cy Young" "cy@example.com" "cy.young" "secret1" = None
  /\ log (snd (signup "Cy Young" "cy@example.com" "cy.young" "secret1"
                 Demo.world))
     = [OpFindOne; OpSave Demo.cy]
  /\ new_password Demo.cy = "secret1"
  /\ new_password Demo.cy <> bcrypt_hash "secret1".
Proof.
  split; [vm_compute; reflexivity |].
  split; [vm_compute; reflexivity |].
  split; [reflexivity |].
  vm_compute. discriminate.
Qed.

Lemma signup_creates_user_witness :
  signup_first_violation (users Demo.world)
    "Cy Young" "cy@example.com" "cy.young" "secret1" = None
  /\ exists u,
       signup "Cy Young" "cy@example.com" "cy.young" "secret1" Demo.world
       = (Fulfilled (generateToken u SECRET "1y"),
          record (OpSave Demo.cy)
            (set_users (users Demo.world ++ [u])
               (record OpFindOne Demo.world)))
       /\ User.password u = bcrypt_hash "secret1"
       /\ User.fullName u = "Cy Young"
       /\ User.email u = "cy@example.com"
       /\ User.username u = "cy.young".
Proof.
  split; [vm_compute; reflexivity |].
  apply (signup_creates_user "Cy Young" "cy@example.com" "cy.young"
           "secret1" Demo.world).
  vm_compute. reflexivity.
Defined.

(** A refused credential: the promise of the context stays pending. *)
Lemma context_verification_throws_witness :
  strict_eq_string (headers_authorization (Demo.request "garbage")) "null"
  = false
  /\ jwt_verify (headers_authorization (Demo.request "garbage")) SECRET
     = Abrupt (Err "JsonWebTokenError" "jwt malformed")
  /\ context Demo.models (Demo.request "garbage") None Demo.world
     = (Pending,
        record (OpVerify (headers_authorization (Demo.request "garbage")))
          Demo.world).
Proof.
  split; [vm_compute; reflexivity |].
  split; [vm_compute; reflexivity |].
  apply (context_verification_throws Demo.models (Demo.request "garbage")
           Demo.world (Err "JsonWebTokenError" "jwt malformed")).
  - vm_compute. reflexivity.
  - vm_compute. reflexivity.
Defined.

(** Claims that carry a field named as the handle [User]: the context
    keeps the handle. *)
Lemma context_store_handles_witness :
  exists ctx,
    context Demo.models (Demo.request "token-of-ann") None Demo.world
    = (Fulfilled (VObject ctx),
       record
         (OpVerify (headers_authorization (Demo.request "token-of-ann")))
         Demo.world)
    /\ ctx !! "User" = Some (VModel "User")
    /\ ctx !! "Post" = Some (VModel "Post")
    /\ ctx !! "fullName" = None
    /\ ctx !! "authUser" = Some Demo.ann_claims.
Proof.
  destruct (context_store_handles Demo.models (Demo.request "token-of-ann")
              Demo.world Demo.ann_claims)
    as (ctx & Hctx & Hmodels & Hother & Hauth).
  - vm_compute. reflexivity.
  - vm_compute. reflexivity.
  - reflexivity.
  - exists ctx. split; [exact Hctx |].
    split; [apply Hmodels; vm_compute; reflexivity |].
    split; [apply Hmodels; vm_compute; reflexivity |].
    split.
    + rewrite Hother by discriminate. vm_compute. reflexivity.
    + apply Hauth. vm_compute. reflexivity.
Defined.

(** The three answers of [bcrypt_compare] for a stored user: a token, the
    failure of a wrong password, and, for a password that is null or
    left out, the error of the comparison itself. *)
Lemma signin_contract_witness :
  signin "bob" (Some "hunter22") Demo.world
  = (Fulfilled (generateToken Demo.bob SECRET "1y"),
     record OpFindOne Demo.world)
  /\ (signin "bob" (Some "wrong") Demo.world
      = (Rejected (Error "Invalid password."), record OpFindOne Demo.world)
      /\ error_kind (Error "Invalid password.") = InvalidCredentials)
  /\ signin "bob" None Demo.world
     = (Rejected (Error "Illegal arguments: object, string"),
        record OpFindOne Demo.world)
  /\ error_kind (Error "Illegal arguments: object, string") = Unclassified.
Proof.
  assert (Hbob : List.find
                   (fun u => String.eqb (User.email u) "bob"
                             || String.eqb (User.username u) "bob")
                   (users Demo.world) = Some Demo.bob)
    by (vm_compute; reflexivity).
  split; [| split; [| split]].
  - destruct (proj2 (signin_contract "bob" (Some "hunter22") Demo.world)
                Demo.bob Hbob) as (_ & _ & Hrun).
    exact Hrun.
  - destruct (proj2 (signin_contract "bob" (Some "wrong") Demo.world)
                Demo.bob Hbob) as (_ & _ & Hrun).
    exact Hrun.
  - destruct (proj2 (signin_contract "bob" None Demo.world)
                Demo.bob Hbob) as (_ & _ & Hrun).
    exact Hrun.
  - reflexivity.
Defined.

(** Both arguments are given, the first one empty: the user is looked
    up by id and answered.  One argument is given, and it is empty: the
    failure is the one of no argument. *)
Lemma getUser_empty_string_counterexample :
  is_Some (Some "" : option string)
  /\ is_Some (Some "u2" : option string)
  /\ getUser (Some "") (Some "u2") Demo.world
     = (Fulfilled (populate_posts Demo.bob), record OpFindOne Demo.world)
  /\ getUser (Some "") None Demo.world
     = (Rejected (Error "username or id is required params."), Demo.world).
Proof.
  split; [eauto |]. split; [eauto |].
  split; vm_compute; reflexivity.
Qed.

Lemma getUser_contract_witness :
  (exists e,
     getUser None None Demo.world = (Rejected e, Demo.world)
     /\ error_kind e = InvalidArgument)
  /\ (User.username Demo.bob = "bob"
      /\ getUser (Some "bob") None Demo.world
         = (Fulfilled (populate_posts Demo.bob),
            record OpFindOne Demo.world))
  /\ (User._id Demo.ann = "u1"
      /\ getUser None (Some "u1") Demo.world
         = (Fulfilled (populate_posts Demo.ann),
            record OpFindOne Demo.world)).
Proof.
  split; [| split].
  - apply (proj1 (getUser_contract None None Demo.world)). reflexivity.
  - apply (proj1 (proj2 (getUser_contract (Some "bob") None Demo.world))
             "bob"); [reflexivity | discriminate | reflexivity].
  - apply (proj2 (proj2 (getUser_contract None (Some "u1") Demo.world))
             "u1"); [reflexivity | discriminate | reflexivity].
Defined.

(** The query [.] is a regular expression that matches every name, and
    no name of the user answered contains a period. *)
Lemma searchUsers_pattern_counterexample :
  searchUsers (Some ".") Demo.ann_claims Demo.world
  = (Fulfilled [Demo.bob], record OpFind Demo.world)
  /\ contains_ci (User.username Demo.bob) "." = false
  /\ contains_ci (User.fullName Demo.bob) "." = false.
Proof. repeat split; vm_compute; reflexivity. Qed.

Lemma searchUsers_contract_witness :
  searchUsers (Some "") Demo.ann_claims Demo.world
  = (Fulfilled [], Demo.world)
  /\ exists test found,
       RegExp "B" "i" = Some test
       /\ searchUsers (Some "B") Demo.ann_claims Demo.world
          = (Fulfilled found, record OpFind Demo.world)
       /\ (length found <= 50)%nat
       /\ Forall (fun u =>
                    In u (users Demo.world)
                    /\ (test (User.username u) = true
                        \/ test (User.fullName u) = true)
                    /\ VString "u1" <> VString (User._id u)) found.
Proof.
  split.
  - apply (proj1 (searchUsers_contract (Some "") Demo.ann_claims
                    Demo.world)).
    reflexivity.
  - destruct (RegExp "B" "i") as [test |] eqn:Ere;
      [| vm_compute in Ere; discriminate].
    exists test.
    destruct (proj1 (proj2 (searchUsers_contract (Some "B") Demo.ann_claims
                              Demo.world)) "B" test (VString "u1")
                eq_refl ltac:(discriminate) Ere)
      as (found & Hfound).
    + vm_compute. reflexivity.
    + exists found. auto.
Defined.

Lemma searchUsers_unauthenticated_witness :
  "ann" <> ""
  /\ exists e,
       searchUsers (Some "ann") VUndefined Demo.world
       = (Rejected e, Demo.world)
       /\ (RegExp "ann" "i" <> None -> exists m, e = TypeError m).
Proof.
  split; [discriminate |].
  apply (searchUsers_unauthenticated "ann" VUndefined Demo.world).
  - discriminate.
  - left. reflexivity.
Defined.


(** The scenarios of the specification. *)
Example signup_short_full_name :
  fst (signup "Al" "al@example.com" "al.one" "secret1" Demo.world)
  = Rejected (Error "Full name min 4 characters.")
  /\ error_kind (Error "Full name min 4 characters.") = InvalidFullName.
Proof. split; vm_compute; reflexivity. Qed.

Example signup_reserved_username :
  fst (signup "Cy Young" "cy@example.com" "post" "secret1" Demo.world)
  = Rejected (Error "This username isn't available. Please try another.")
  /\ error_kind (Error "This username isn't available. Please try another.")
     = UsernameUnavailable.
Proof. split; vm_compute; reflexivity. Qed.

Example signup_taken_email :
  fst (signup "Ann Two" "ann@example.com" "ann.two" "secret1" Demo.world)
  = Rejected (Error "User with given email already exists.").
Proof. vm_compute. reflexivity. Qed.

Example signin_wrong_password :
  fst (signin "ann.lee" (Some "wrong horse") Demo.world)
  = Rejected (Error "Invalid password.").
Proof. vm_compute. reflexivity. Qed.

Example signin_unknown :
  fst (signin "nobody" (Some "secret1") Demo.world)
  = Rejected (Error "User not found.").
Proof. vm_compute. reflexivity. Qed.

(** The reset token of ann expires at 1000000: it is accepted one hour
    later to the millisecond, and refused one millisecond after that. *)
Example verifyResetPasswordToken_window :
  fst (verifyResetPasswordToken (Some "ann@example.com") "r3s3t"
         {| users := users Demo.world; log := []; clock := 4600000 |})
  = Fulfilled "Success"
  /\ fst (verifyResetPasswordToken (Some "ann@example.com") "r3s3t"
            {| users := users Demo.world; log := []; clock := 4600001 |})
     = Rejected (Error "This token is either invalid or expired!").
Proof. split; vm_compute; reflexivity. Qed.

(** The bounds on the length of a user name are a check of their own:
    the pattern accepts names of one and two characters, and names of 21
    to 30. *)
Example username_length_is_checked :
  username_pattern "cy" = true
  /\ signup_first_violation (users Demo.world)
       "Cy Young" "cy@example.com" "cy" "secret1" = Some InvalidUsername
  /\ fst (signup "Cy Young" "cy@example.com" "cy" "secret1" Demo.world)
     = Rejected (Error "Username min 3 characters.").
Proof. repeat split; vm_compute; reflexivity. Qed.

(** The three outcomes of the context builder on a request without a
    connection. *)
Example context_null :
  fst (context Demo.models (Demo.request "null") None Demo.world)
  = Fulfilled
      (VObject (Object_assign {[ "authUser" := VUndefined ]} Demo.models))
  /\ log (snd (context Demo.models (Demo.request "null") None Demo.world))
     = [].
Proof. split; vm_compute; reflexivity. Qed.

Example context_no_header :
  context Demo.models {| headers := ∅ |} None Demo.world
  = (Pending, record (OpVerify VUndefined) Demo.world).
Proof. vm_compute. reflexivity. Qed.

End Examples.

(* ===================================================================== *)
(** * More on the context builder                                         *)
(* ===================================================================== *)

Section ContextRuns.

Context `{Env}.

Lemma checkAuthorization_run (token : value) (w : World) :
  checkAuthorization token w
  = (match jwt_verify token SECRET with
     | Normal v =>
         if truthy v then Fulfilled v
         else Rejected (Thrown (VString "Couldn't authenticate user"))
     | Abrupt _ => Pending
     end,
     record (OpVerify token) w).
Proof.
  unfold checkAuthorization, async_executor, new_Promise.
  destruct (jwt_verify token SECRET) as [v | e]; [destruct (truthy v) |];
    reflexivity.
Qed.

Lemma context_run (models : gmap string value) (req : Request) (w : World) :
  context models req None w
  = if strict_eq_string (headers_authorization req) "null"
    then (Fulfilled
            (VObject (Object_assign {[ "authUser" := VUndefined ]} models)),
          w)
    else (match jwt_verify (headers_authorization req) SECRET with
          | Normal v =>
              if truthy v
              then Fulfilled
                     (VObject (Object_assign {[ "authUser" := v ]} models))
              else Rejected (Thrown (VString "Couldn't authenticate user"))
          | Abrupt _ => Pending
          end,
          record (OpVerify (headers_authorization req)) w).
Proof.
  unfold context, bind.
  destruct (strict_eq_string (headers_authorization req) "null");
    cbn [negb]; [reflexivity |].
  rewrite checkAuthorization_run.
  destruct (jwt_verify _ SECRET) as [v | e]; [| reflexivity].
  destruct (truthy v) eqn:Ev; [| reflexivity].
  unfold ret. rewrite Ev. reflexivity.
Qed.

Lemma header_null_iff (req : Request) :
  strict_eq_string (headers_authorization req) "null" = true
  <-> headers req !! "authorization" = Some "null".
Proof.
  unfold headers_authorization.
  destruct (headers req !! "authorization") as [s |]; simpl.
  - rewrite String.eqb_eq. split; [intros -> | intros E; inversion E]; auto.
  - split; discriminate.
Qed.

Lemma record_log_neq (o : Op) (w : World) : log (record o w) <> log w.
Proof.
  simpl. intros E. apply (f_equal (@length Op)) in E.
  rewrite length_app in E. simpl in E. lia.
Qed.

Lemma authUser_of_context (models : gmap string value) (a : value) :
  models !! "authUser" = None ->
  prop (VObject (Object_assign {[ "authUser" := a ]} models)) "authUser"
  = Normal a.
Proof.
  intros Hm. unfold prop, Object_assign.
  rewrite lookup_union_r by auto. rewrite lookup_singleton_eq. reflexivity.
Qed.

(** X1.  The promise of [checkAuthorization] is fulfilled only with a truthy
    payload that [jwt_verify] returned, rejected only for a falsy
    payload and then with the string of the program, and left pending
    exactly when [jwt_verify] throws; whatever the outcome, the
    verification is called once and the collection is not touched. *)
Theorem checkAuthorization_outcomes (token : value) (w : World) :
  snd (checkAuthorization token w) = record (OpVerify token) w
  /\ (forall v,
        fst (checkAuthorization token w) = Fulfilled v
        <-> jwt_verify token SECRET = Normal v /\ truthy v = true)
  /\ (forall e,
        fst (checkAuthorization token w) = Rejected e
        <-> e = Thrown (VString "Couldn't authenticate user")
            /\ exists v, jwt_verify token SECRET = Normal v
                         /\ truthy v = false)
  /\ (fst (checkAuthorization token w) = Pending
      <-> exists e, jwt_verify token SECRET = Abrupt e).
Proof.
  rewrite checkAuthorization_run. cbn [fst snd].
  split; [reflexivity |].
  destruct (jwt_verify token SECRET) as [v | e];
    [destruct (truthy v) eqn:Ev |].
  - split; [| split].
    + intros v'. split.
      * intros E. inversion E; subst. auto.
      * intros [E _]. inversion E; subst. reflexivity.
    + intros e. split; [discriminate |].
      intros [_ (v' & E & Hv)]. inversion E; subst. congruence.
    + split; [discriminate | intros [e E]; discriminate].
  - split; [| split].
    + intros v'. split; [discriminate |].
      intros [E Hv]. inversion E; subst. congruence.
    + intros e. split.
      * intros E. inversion E; subst. eauto.
      * intros [-> _]. reflexivity.
    + split; [discriminate | intros [e E]; discriminate].
  - split; [| split].
    + intros v. split; [discriminate | intros [E _]; discriminate].
    + intros e'. split; [discriminate |].
      intros [_ (v & E & _)]. discriminate.
    + split; eauto.
Qed.

(** X2.  The context is built without a verification exactly for a request
    on a persistent connection and for a request whose authorization
    header is the string [null]; every other request, one without the
    header included, has its header verified once. *)
Theorem context_skips_verification_iff (models : gmap string value)
  (req : Request) (connection : option Connection) (w : World) :
  (log (snd (context models req connection w)) = log w
   <-> connection <> None \/ headers req !! "authorization" = Some "null")
  /\ (log (snd (context models req connection w)) = log w
      \/ log (snd (context models req connection w))
         = (log w ++ [OpVerify (headers_authorization req)])%list).
Proof.
  destruct connection as [c |].
  - simpl. split; [| left; reflexivity].
    split; [intros _; left; discriminate | reflexivity].
  - rewrite context_run.
    destruct (strict_eq_string (headers_authorization req) "null") eqn:En.
    + cbn [snd]. split; [| left; reflexivity].
      split; [| reflexivity]. intros _. right.
      apply header_null_iff. exact En.
    + cbn [snd]. split; [| right; reflexivity]. split.
      * intros E. exfalso. exact (record_log_neq _ _ E).
      * intros [Hc | Hh]; [congruence |].
        apply header_null_iff in Hh. congruence.
Qed.

(** X3.  The [authUser] of a context built for a request without connection
    is undefined only for the header [null], and is otherwise a truthy
    payload that [jwt_verify] returned for the header: a falsy payload
    or an unverified header never gets into a context. *)
Theorem context_authUser_verified (models : gmap string value)
  (req : Request) (w w' : World) (ctx : value) :
  context models req None w = (Fulfilled ctx, w') ->
  exists a,
    ctx = VObject (Object_assign {[ "authUser" := a ]} models)
    /\ ((a = VUndefined
         /\ headers req !! "authorization" = Some "null" /\ w' = w)
        \/ (truthy a = true
            /\ jwt_verify (headers_authorization req) SECRET = Normal a
            /\ w' = record (OpVerify (headers_authorization req)) w)).
Proof.
  rewrite context_run.
  destruct (strict_eq_string (headers_authorization req) "null") eqn:En.
  - intros E. inversion E; subst. exists VUndefined. split; auto.
    left. split; auto. split; auto. apply header_null_iff. auto.
  - destruct (jwt_verify _ SECRET) as [v | e]; [| discriminate].
    destruct (truthy v) eqn:Ev; [| discriminate].
    intros E. inversion E; subst. exists v. split; auto.
Qed.

(** X4.  A model named [authUser] takes the place of the authenticated user:
    whatever the header and the payload, the [authUser] of the context
    is then the handle of that model. *)
Theorem context_model_named_authUser (models : gmap string value)
  (req : Request) (w w' : World) (ctx : gmap string value) (h : value) :
  models !! "authUser" = Some h ->
  context models req None w = (Fulfilled (VObject ctx), w') ->
  ctx !! "authUser" = Some h.
Proof.
  intros Hm. rewrite context_run.
  destruct (strict_eq_string (headers_authorization req) "null").
  - intros E. inversion E; subst.
    apply lookup_union_Some_l. auto.
  - destruct (jwt_verify _ SECRET) as [v | e]; [| discriminate].
    destruct (truthy v); [| discriminate].
    intros E. inversion E; subst. apply lookup_union_Some_l. auto.
Qed.

(** X5.  A request with the header [null] reaches the resolvers without an
    authenticated user: [getAuthUser] answers null and calls nothing,
    and [searchUsers] with a non-empty query fails without a call to the
    store. *)
Theorem with_context_anonymous (models : gmap string value) (req : Request)
  (w : World) :
  models !! "authUser" = None ->
  headers req !! "authorization" = Some "null" ->
  with_context models req None getAuthUser w = (Fulfilled None, w)
  /\ forall q, q <> "" ->
       exists e,
         with_context models req None (searchUsers (Some q)) w
         = (Rejected e, w).
Proof.
  intros Hm Hh. apply header_null_iff in Hh.
  unfold with_context, bind. rewrite context_run, Hh.
  rewrite (authUser_of_context models VUndefined Hm). cbn [lift ret].
  split; [reflexivity |].
  intros q Hq. unfold searchUsers, bind, lift, new_RegExp, ret, throw.
  cbn [truthy_arg]. apply String.eqb_neq in Hq. rewrite Hq.
  cbn [negb default from_option id].
  destruct (RegExp q "i"); simpl; eexists; reflexivity.
Qed.

(** X6.  A request whose header is verified reaches the resolver with the
    payload of the verification as [authUser], after the one call to
    the verification and nothing else. *)
Theorem with_context_verified {A : Type} (models : gmap string value)
  (req : Request) (w : World) (claims : value) (resolver : value -> M A) :
  models !! "authUser" = None ->
  strict_eq_string (headers_authorization req) "null" = false ->
  jwt_verify (headers_authorization req) SECRET = Normal claims ->
  truthy claims = true ->
  with_context models req None resolver w
  = resolver claims (record (OpVerify (headers_authorization req)) w).
Proof.
  intros Hm Hn Hv Ht.
  unfold with_context, bind. rewrite context_run, Hn, Hv, Ht.
  rewrite (authUser_of_context models claims Hm). reflexivity.
Qed.

End ContextRuns.

(* ===================================================================== *)
(** * More on the queries                                                 *)
(* ===================================================================== *)

Module RunFacts.

Lemma update_first_Forall2 (q : User.doc -> bool) (f : User.doc -> User.doc)
  (l : list User.doc) :
  Forall2 (fun old new => new = old \/ new = f old) l (update_first q f l).
Proof.
  induction l as [| a l IH]; simpl; [constructor |].
  destruct (q a).
  - constructor; auto. clear IH.
    induction l; constructor; auto.
  - constructor; auto.
Qed.

Lemma Forall2_same (f : User.doc -> User.doc) (l : list User.doc) :
  Forall2 (fun old new => new = old \/ new = f old) l l.
Proof. induction l; constructor; auto. Qed.

Lemma update_first_idempotent (q : User.doc -> bool)
  (f : User.doc -> User.doc) (l : list User.doc) :
  (forall u, q (f u) = q u) -> (forall u, f (f u) = f u) ->
  update_first q f (update_first q f l) = update_first q f l.
Proof.
  intros Hq Hf. induction l as [| a l IH]; simpl; auto.
  destruct (q a) eqn:Ea; simpl.
  - rewrite Hq, Ea, Hf. reflexivity.
  - rewrite Ea, IH. reflexivity.
Qed.

(** What [getAuthUser] does for a truthy [authUser]: one call, with a
    query on the email. *)
Lemma getAuthUser_run (authUser : value) :
  truthy authUser = true ->
  exists q : User.doc -> bool,
    (forall u, q (User.set_isOnline true u) = q u)
    /\ forall w,
         getAuthUser authUser w
         = (Fulfilled (option_map populate_posts (List.find q (users w))),
            record OpFindOneAndUpdate
              (set_users (update_first q (User.set_isOnline true) (users w))
                 w)).
Proof.
  intros Ht. unfold getAuthUser. rewrite Ht. cbn [negb].
  destruct authUser; try discriminate;
    (eexists; split; [| intros w; reflexivity]; intros u; reflexivity).
Qed.

Lemma reads_only_refl (w : World) : reads_only w w.
Proof.
  split; [reflexivity |]. split; [reflexivity |].
  exists []. rewrite app_nil_r. repeat split; simpl; auto.
Qed.

Lemma reads_only_record (o : Op) (w : World) :
  is_write o = false -> reads_only w (record o w).
Proof.
  intros Ho. split; [reflexivity |]. split; [reflexivity |].
  exists [o]. repeat split; simpl; auto.
Qed.

Lemma filter_sublist (f : User.doc -> bool) (l : list User.doc) :
  sublist (List.filter f l) l.
Proof.
  induction l as [| a l IH]; simpl; [constructor |].
  destruct (f a); [apply sublist_skip | apply sublist_cons]; auto.
Qed.

End RunFacts.

(** X7.  [getAuthUser] never removes, adds or reorders a user: the user at
    each place of the collection afterwards has the id, the full name,
    the email, the user name, the password, the reset token with its
    expiry and the posts of the user at that place before, and is online
    if that one was. *)
Theorem getAuthUser_only_sets_flag (authUser : value) (w : World) :
  Forall2 (fun old new =>
             User._id new = User._id old
             /\ User.fullName new = User.fullName old
             /\ User.email new = User.email old
             /\ User.username new = User.username old
             /\ User.password new = User.password old
             /\ User.passwordResetToken new = User.passwordResetToken old
             /\ User.passwordResetTokenExpiry new
                = User.passwordResetTokenExpiry old
             /\ User.posts new = User.posts old
             /\ (User.isOnline old = true -> User.isOnline new = true))
    (users w) (users (snd (getAuthUser authUser w))).
Proof.
  assert (Hstep : forall old new : User.doc,
             new = old \/ new = User.set_isOnline true old ->
             User._id new = User._id old
             /\ User.fullName new = User.fullName old
             /\ User.email new = User.email old
             /\ User.username new = User.username old
             /\ User.password new = User.password old
             /\ User.passwordResetToken new = User.passwordResetToken old
             /\ User.passwordResetTokenExpiry new
                = User.passwordResetTokenExpiry old
             /\ User.posts new = User.posts old
             /\ (User.isOnline old = true -> User.isOnline new = true)).
  { intros old new [-> | ->]; repeat split; auto. }
  destruct (truthy authUser) eqn:Ht.
  - destruct (RunFacts.getAuthUser_run authUser Ht) as (q & _ & Hrun).
    rewrite Hrun. cbn [snd users record set_users].
    eapply Forall2_impl; [apply RunFacts.update_first_Forall2 | exact Hstep].
  - unfold getAuthUser. rewrite Ht. cbn [negb snd ret].
    eapply Forall2_impl; [apply RunFacts.Forall2_same | exact Hstep].
Qed.

(** X8.  Asking again changes no online flag: in any world that holds the
    collection that [getAuthUser] left, whatever its clock, the same
    query leaves every user online or offline as it was. *)
Theorem getAuthUser_idempotent (authUser : value) (w later : World) :
  users later = users (snd (getAuthUser authUser w)) ->
  map User.isOnline (users (snd (getAuthUser authUser later)))
  = map User.isOnline (users later).
Proof.
  intros Hlater. destruct (truthy authUser) eqn:Ht.
  - destruct (RunFacts.getAuthUser_run authUser Ht) as (q & Hq & Hrun).
    rewrite Hrun in Hlater. rewrite Hrun.
    cbn [snd users record set_users] in *.
    rewrite Hlater.
    rewrite RunFacts.update_first_idempotent.
    + reflexivity.
    + exact Hq.
    + intros u. reflexivity.
  - unfold getAuthUser. rewrite Ht. reflexivity.
Qed.

Section ReadOnly.

Context `{Env}.

(** X9.  [getUser], [searchUsers], [verifyResetPasswordToken] and [signin]
    never change the collection, whatever their arguments and whether
    they succeed or fail; each calls the store at most once, to read. *)
Theorem queries_and_signin_read_only (w : World) :
  (forall username id, reads_only w (snd (getUser username id w)))
  /\ (forall searchQuery authUser,
        reads_only w (snd (searchUsers searchQuery authUser w)))
  /\ (forall email token,
        reads_only w (snd (verifyResetPasswordToken email token w)))
  /\ (forall emailOrUsername password,
        reads_only w (snd (signin emailOrUsername password w))).
Proof.
  split; [| split; [| split]].
  - intros username id. unfold getUser.
    destruct (negb (truthy_arg username) && negb (truthy_arg id));
      [apply RunFacts.reads_only_refl |].
    destruct (truthy_arg username && truthy_arg id);
      [apply RunFacts.reads_only_refl |].
    rewrite getUser_lookup.
    destruct (List.find _ (users w));
      apply RunFacts.reads_only_record; reflexivity.
  - intros searchQuery authUser.
    unfold searchUsers, bind, lift, new_RegExp, User_find_limit, ret, throw.
    destruct (negb (truthy_arg searchQuery));
      [apply RunFacts.reads_only_refl |].
    destruct (RegExp _ "i"); [| apply RunFacts.reads_only_refl].
    destruct (prop authUser "id"); [| apply RunFacts.reads_only_refl].
    apply RunFacts.reads_only_record. reflexivity.
  - intros email token.
    unfold verifyResetPasswordToken, bind, Date_now, User_findOne.
    destruct (List.find _ (users w));
      apply RunFacts.reads_only_record; reflexivity.
  - intros emailOrUsername password.
    unfold signin, bind, User_findOne.
    unfold lift, ret, throw.
    destruct (List.find _ (users w)) as [u |];
      [destruct (bcrypt_compare password (User.password u)) as [[|] | e] |];
      apply RunFacts.reads_only_record; reflexivity.
Qed.

(** X10.  The answer of [searchUsers] keeps the order of the collection, has
    50 users or all the users that the query selects if these are fewer,
    and in the latter case misses none of them. *)
Theorem searchUsers_complete (q : string) (test : string -> bool)
  (own authUser : value) (w w' : World) (found : list User.doc) :
  q <> "" ->
  RegExp q "i" = Some test ->
  prop authUser "id" = Normal own ->
  searchUsers (Some q) authUser w = (Fulfilled found, w') ->
  let selected :=
    List.filter (fun u => (test (User.username u) || test (User.fullName u))
                          && negb (field_is own (User._id u))) (users w) in
  sublist found (users w)
  /\ length found = Nat.min 50 (length selected)
  /\ ((length selected <= 50)%nat -> found = selected).
Proof.
  intros Hq Hre Hown.
  unfold searchUsers, bind, lift, new_RegExp, User_find_limit, ret.
  cbn [truthy_arg]. apply String.eqb_neq in Hq. rewrite Hq.
  cbn [negb default from_option id]. rewrite Hre, Hown.
  intros E. inversion E; subst. cbv zeta. split; [| split].
  - etransitivity; [apply sublist_take | apply RunFacts.filter_sublist].
  - apply length_firstn.
  - intros Hle. apply firstn_all2. exact Hle.
Qed.

End ReadOnly.

(** X11.  A reset token that is refused now is refused at any later time, the
    collection being the same: what is accepted at some time is accepted
    at every earlier time. *)
Theorem verifyResetPasswordToken_earlier (email : option string)
  (token : string) (w1 w2 : World) :
  users w2 = users w1 ->
  clock w2 <= clock w1 ->
  fst (verifyResetPasswordToken email token w1) = Fulfilled "Success" ->
  fst (verifyResetPasswordToken email token w2) = Fulfilled "Success".
Proof.
  intros Hu Hc.
  unfold verifyResetPasswordToken, bind, Date_now, User_findOne.
  rewrite Hu.
  match goal with
  | |- context [List.find ?q (users w1)] =>
      destruct (List.find q (users w1)) as [u |] eqn:E1
  end; cbn [fst]; [| discriminate].
  intros _.
  match goal with
  | |- context [List.find ?q (users w1)] =>
      destruct (List.find q (users w1)) as [v |] eqn:E2
  end; cbn [fst]; [reflexivity | exfalso].
  apply find_some in E1 as [Hin H1].
  apply (find_none _ _ E2) in Hin.
  apply reset_token_query in H1 as (He & Ht & x & Hx & Hle).
  assert (H2 : email = Some (User.email u)
               /\ User.passwordResetToken u = Some token
               /\ exists expiry,
                    User.passwordResetTokenExpiry u = Some expiry
                    /\ clock w2 - 3600000 <= expiry).
  { split; auto. split; auto. exists x. split; auto. lia. }
  apply (reset_token_query email token (clock w2) u) in H2.
  simpl in Hin, H2. congruence.
Qed.

(** X12.  When the users with the given email and reset token all have the
    expiry [x], and there is one, the token is accepted up to and
    including [x + 3600000] on the clock and refused from the next
    millisecond on: the field named expiry is where the hour starts. *)
Theorem verifyResetPasswordToken_last_instant (email : option string)
  (token : string) (w : World) (u : User.doc) (x : Z) :
  In u (users w) ->
  email = Some (User.email u) ->
  User.passwordResetToken u = Some token ->
  (forall v,
     In v (users w) -> email = Some (User.email v) ->
     User.passwordResetToken v = Some token ->
     User.passwordResetTokenExpiry v = Some x) ->
  (fst (verifyResetPasswordToken email token w) = Fulfilled "Success"
   <-> clock w <= x + 3600000).
Proof.
  intros Hin He Ht Hall.
  unfold verifyResetPasswordToken, bind, Date_now, User_findOne.
  match goal with
  | |- context [List.find ?q (users w)] =>
      destruct (List.find q (users w)) as [v |] eqn:E
  end; cbn [fst].
  - apply find_some in E as [Hv Hq].
    apply reset_token_query in Hq as (Hev & Htv & y & Hy & Hle).
    rewrite (Hall v Hv Hev Htv) in Hy. inversion Hy; subst y.
    split; [intros _; lia | reflexivity].
  - split; [discriminate |]. intros Hle. exfalso.
    pose proof (find_none _ _ E u Hin) as Hq.
    assert (H2 : email = Some (User.email u)
                 /\ User.passwordResetToken u = Some token
                 /\ exists expiry,
                      User.passwordResetTokenExpiry u = Some expiry
                      /\ clock w - 3600000 <= expiry).
    { split; auto. split; auto. exists x. split; [| lia].
      apply Hall; auto. }
    apply (reset_token_query email token (clock w) u) in H2.
    simpl in Hq, H2. congruence.
Qed.

(** X13.  In a collection where no user has both a reset token and an
    expiry, every token is refused, for every email and at every
    time. *)
Theorem verifyResetPasswordToken_nothing_pending (email : option string)
  (token : string) (w : World) :
  (forall u, In u (users w) ->
             User.passwordResetToken u = None
             \/ User.passwordResetTokenExpiry u = None) ->
  fst (verifyResetPasswordToken email token w)
  = Rejected (Error "This token is either invalid or expired!").
Proof.
  intros Hnone.
  unfold verifyResetPasswordToken, bind, Date_now, User_findOne.
  match goal with
  | |- context [List.find ?q (users w)] =>
      destruct (List.find q (users w)) as [v |] eqn:E
  end; cbn [fst]; [exfalso | reflexivity].
  apply find_some in E as [Hv Hq].
  apply reset_token_query in Hq as (_ & Ht & x & Hx & _).
  destruct (Hnone v Hv); congruence.
Qed.

(* ===================================================================== *)
(** * More on the two expressions of sign-up                              *)
(* ===================================================================== *)

Module ShapeFacts.

Import RegexFacts.

Lemma Matches_min_length (r : regex) (l : list ascii) :
  Matches r l -> (min_length r <= length l)%nat.
Proof.
  induction 1; simpl; try rewrite length_app; lia.
Qed.

Lemma Matches_alphabet (r : regex) (l : list ascii) :
  Matches r l -> Forall (fun c => alphabet r c = true) l.
Proof.
  induction 1; simpl; try constructor; auto.
  - apply Forall_app. split;
      (eapply Forall_impl; [eassumption |]); simpl; intros c Hc;
      rewrite Hc; auto using orb_true_r.
  - eapply Forall_impl; [eassumption |]. simpl. intros c Hc.
    rewrite Hc. auto.
  - eapply Forall_impl; [eassumption |]. simpl. intros c Hc.
    rewrite Hc. auto using orb_true_r.
  - apply Forall_app. split; auto.
Qed.

Lemma is_code_eq (k : nat) (c : ascii) :
  Chars.is_code k c = true -> c = ascii_of_nat k.
Proof.
  unfold Chars.is_code, Chars.code. intros Hc. apply Nat.eqb_eq in Hc.
  rewrite <- Hc. symmetry. apply ascii_nat_embedding.
Qed.

Lemma emailRegex_split (l : list ascii) :
  Matches emailRegex l ->
  exists local domain,
    l = (local ++ "@"%char :: domain)%list
    /\ Matches emailRegex_local local
    /\ Matches emailRegex_domain domain.
Proof.
  intros Hm.
  change emailRegex
    with (Seq emailRegex_local (Seq (Lit 64) emailRegex_domain)) in Hm.
  apply Matches_Seq in Hm as (local & rest & -> & Hl & Hm).
  apply Matches_Seq in Hm as (at_sign & domain & -> & Ha & Hd).
  apply Matches_Chr in Ha as (c & -> & Hc).
  apply is_code_eq in Hc. subst c.
  exists local, domain. auto.
Qed.

Lemma domain_alphabet (c : ascii) :
  alphabet emailRegex_domain c = true ->
  Chars.is_domain_label c = true \/ Chars.is_period c = true
  \/ c = "["%char \/ c = "]"%char.
Proof.
  destruct c as [[] [] [] [] [] [] [] []]; vm_compute; intros Hc;
    try discriminate;
    first [ left; reflexivity
          | right; left; reflexivity
          | right; right; left; reflexivity
          | right; right; right; reflexivity ].
Qed.

Lemma includes_In (l : list string) (x : string) :
  includes l x = true <-> In x l.
Proof.
  induction l as [| y l IH]; simpl.
  - split; [discriminate | tauto].
  - rewrite orb_true_iff, String.eqb_eq, IH. tauto.
Qed.

End ShapeFacts.

(** X18.  The strings that [usernameRegex] accepts are exactly those that
    start with a letter, a digit or an underscore, have at most 30
    characters, all of them letters, digits, underscores or periods,
    have no two periods in a row and do not end in a period. *)
Theorem usernameRegex_accepts (s : string) :
  usernameRegex_test s = true
  <-> (exists c t, chars s = c :: t /\ Chars.is_word c = true)
      /\ (String.length s <= 30)%nat
      /\ Forall (fun c => Chars.is_word c = true \/ Chars.is_period c = true)
           (chars s)
      /\ (forall pre c1 c2 post,
            chars s = (pre ++ c1 :: c2 :: post)%list ->
            Chars.is_period c1 = true -> Chars.is_period c2 = false)
      /\ (forall pre c,
            chars s = (pre ++ [c])%list -> Chars.is_period c = false).
Proof.
  rewrite UsernameFacts.usernameRegex_test_pattern.
  unfold username_pattern.
  rewrite !andb_true_iff, !negb_true_iff, Nat.leb_le.
  assert (Hall : forallb Chars.is_word_or_period (chars s) = true
                 <-> Forall (fun c => Chars.is_word c = true
                                      \/ Chars.is_period c = true)
                       (chars s)).
  { rewrite forallb_forall, Forall_forall. split; intros Hf c Hc.
    - apply orb_true_iff. apply Hf. apply list_elem_of_In. auto.
    - apply orb_true_iff. apply Hf. apply list_elem_of_In. auto. }
  split.
  - intros ((((Hw & Hp) & He) & Hn) & Hf).
    split; [| split; [| split; [| split]]]; auto.
    + destruct (chars s) as [| c t]; [discriminate | eauto].
    + apply Hall. auto.
    + intros pre c1 c2 post E H1.
      destruct (Chars.is_period c2) eqn:H2; auto.
      rewrite E, (UsernameFacts.periods_app pre post c1 c2 H1 H2) in Hp.
      discriminate.
    + intros pre c E.
      rewrite E, UsernameFacts.last_period_app in He. auto.
  - intros ((c & t & E & Hc) & Hn & Hf & Hp & He).
    repeat split; auto.
    + rewrite E. auto.
    + destruct (has_consecutive_periods (chars s)) eqn:Hcp; auto.
      apply UsernameFacts.periods_split in Hcp
        as (pre & c1 & c2 & post & E' & H1 & H2).
      rewrite (Hp pre c1 c2 post E' H1) in H2. discriminate.
    + destruct (ends_in_period (chars s)) eqn:Hep; auto.
      apply UsernameFacts.last_period_split in Hep as (pre & c' & E' & H').
      rewrite (He pre c' E') in H'. discriminate.
    + apply Hall. auto.
Qed.

(** X19.  A string that [emailRegex] accepts has an at sign with something
    before it and at least four characters after it, these being
    letters, digits, hyphens, periods or square brackets: no white
    space, no second at sign after that one. *)
Theorem emailRegex_accepts_shape (s : string) :
  emailRegex_test s = true ->
  exists local domain,
    chars s = (local ++ "@"%char :: domain)%list
    /\ local <> []
    /\ (4 <= length domain)%nat
    /\ Forall (fun c =>
                 Chars.is_domain_label c = true \/ Chars.is_period c = true
                 \/ c = "["%char \/ c = "]"%char) domain.
Proof.
  unfold emailRegex_test. rewrite RegexFacts.matches_Matches.
  intros Hm. apply ShapeFacts.emailRegex_split in Hm
    as (local & domain & E & Hl & Hd).
  exists local, domain. split; [exact E |]. split; [| split].
  - apply ShapeFacts.Matches_min_length in Hl.
    change (min_length emailRegex_local) with 1%nat in Hl.
    destruct local; [simpl in Hl; lia | discriminate].
  - apply ShapeFacts.Matches_min_length in Hd.
    change (min_length emailRegex_domain) with 4%nat in Hd. exact Hd.
  - apply ShapeFacts.Matches_alphabet in Hd.
    eapply Forall_impl; [exact Hd |]. apply ShapeFacts.domain_alphabet.
Qed.

(** X20.  No string is accepted both as an email and as a user name: a user
    name that [signup] lets through is never the email of a sign-up. *)
Theorem email_and_username_disjoint (s : string) :
  usernameRegex_test s = true -> emailRegex_test s = false.
Proof.
  intros Hu. destruct (emailRegex_test s) eqn:He; auto. exfalso.
  unfold emailRegex_test in He.
  apply RegexFacts.matches_Matches, ShapeFacts.emailRegex_split in He
    as (local & domain & E & _ & _).
  rewrite UsernameFacts.usernameRegex_test_pattern in Hu.
  unfold username_pattern in Hu. apply andb_true_iff in Hu as [_ Hf].
  rewrite E, forallb_app in Hf. apply andb_true_iff in Hf as [_ Hf].
  cbn [forallb] in Hf. apply andb_true_iff in Hf as [Hat _].
  vm_compute in Hat. discriminate.
Qed.

(* ===================================================================== *)
(** * More on sign-up                                                     *)
(* ===================================================================== *)

(** One test of [signup] in a run [H] that did not stop there. *)
Ltac signup_passed H :=
  match type of H with
  | (if ?b then _ else _) _ = _ =>
      destruct b eqn:?; [unfold throw in H; discriminate H |]
  end.

(** One test of [signup] in a run [H] that ended with a given error:
    the cases of the other errors go. *)
Ltac signup_failed H :=
  match type of H with
  | (if ?b then _ else _) _ = _ =>
      destruct b eqn:?; [try (unfold throw in H; discriminate H) |]
  end.

Section SignupRuns.

Context `{Env}.

Lemma find_app_last (q : User.doc -> bool) (l : list User.doc)
  (u : User.doc) :
  (forall v, In v l -> q v = false) -> q u = true ->
  List.find q (l ++ [u]) = Some u.
Proof.
  intros Hl Hu. induction l as [| a l IH]; simpl.
  - rewrite Hu. reflexivity.
  - rewrite (Hl a) by (left; reflexivity).
    apply IH. intros v Hv. apply Hl. right. exact Hv.
Qed.

(** What a run of [signup] that ends well has gone through. *)
Lemma signup_fulfilled_inv (fullName email username password : string)
  (w w' : World) (token : string) :
  signup fullName email username password w = (Fulfilled token, w') ->
  List.find (fun u => String.eqb (User.email u) email
                      || String.eqb (User.username u) username) (users w)
  = None
  /\ (String.eqb fullName "" || String.eqb email ""
      || String.eqb username "" || String.eqb password "") = false
  /\ Nat.ltb 40 (String.length fullName) = false
  /\ Nat.ltb (String.length fullName) 4 = false
  /\ emailRegex_test (toLowerCase email) = true
  /\ usernameRegex_test username = true
  /\ Nat.ltb 20 (String.length username) = false
  /\ Nat.ltb (String.length username) 3 = false
  /\ includes frontEndPages username = false
  /\ Nat.ltb (String.length password) 6 = false
  /\ exists u,
       User_save {| new_fullName := fullName; new_email := email;
                    new_username := username; new_password := password |}
         (record OpFindOne w) = (Fulfilled u, w')
       /\ token = generateToken u SECRET "1y".
Proof.
  intros Hrun. unfold signup, bind, User_findOne in Hrun.
  destruct (List.find _ (users w)) as [u |] eqn:Efind;
    [unfold throw in Hrun; discriminate Hrun |].
  repeat signup_passed Hrun.
  unfold User_save, ret in Hrun. inversion Hrun; subst.
  repeat match goal with
         | E : negb _ = false |- _ => apply negb_false_iff in E
         end.
  repeat split; auto.
  eexists. split; reflexivity.
Qed.

(** X14.  Whatever [signup] accepts satisfies every rule: no stored user has
    the email or the user name, the full name has 4 to 40 characters,
    the email in lower case passes [emailRegex], the user name passes
    [usernameRegex], has 3 to 20 characters and is none of the reserved
    pages, and the password has at least 6 characters. *)
Theorem signup_accepts_only_valid
  (fullName email username password : string) (w w' : World)
  (token : string) :
  signup fullName email username password w = (Fulfilled token, w') ->
  (forall u, In u (users w) ->
             User.email u <> email /\ User.username u <> username)
  /\ (4 <= String.length fullName <= 40)%nat
  /\ emailRegex_test (toLowerCase email) = true
  /\ usernameRegex_test username = true
  /\ (3 <= String.length username <= 20)%nat
  /\ ~ In username frontEndPages
  /\ (6 <= String.length password)%nat.
Proof.
  intros Hrun.
  apply signup_fulfilled_inv in Hrun
    as (Hfind & _ & Hf1 & Hf2 & He & Hu & Hu1 & Hu2 & Hr & Hp & _).
  apply Nat.ltb_ge in Hf1, Hf2, Hu1, Hu2, Hp.
  split; [| repeat split; auto].
  - intros u Hin. pose proof (find_none _ _ Hfind u Hin) as Hq.
    simpl in Hq. apply orb_false_iff in Hq as [H1 H2].
    apply String.eqb_neq in H1, H2. auto.
  - intros Hin. apply ShapeFacts.includes_In in Hin. congruence.
Qed.

(** X15.  The error about a user name that is not available is only ever
    raised for [explore], [people], [notifications] and [post]: the two
    other reserved pages have a hyphen and are stopped before, by the
    test of the characters. *)
Theorem signup_unavailable_usernames
  (fullName email username password : string) (w w' : World) :
  signup fullName email username password w
  = (Rejected (Error "This username isn't available. Please try another."),
     w') ->
  In username ["explore"; "people"; "notifications"; "post"].
Proof.
  intros Hrun. unfold signup, bind, User_findOne in Hrun.
  destruct (List.find _ (users w)) as [u |] eqn:Efind.
  { unfold throw in Hrun.
    destruct (String.eqb (User.email u) email); discriminate Hrun. }
  repeat signup_failed Hrun.
  - match goal with
    | E : includes frontEndPages username = true |- _ =>
        apply ShapeFacts.includes_In in E; rename E into Hin
    end.
    match goal with
    | E : negb (usernameRegex_test username) = false |- _ =>
        apply negb_false_iff in E; rename E into Hre
    end.
    simpl in Hin.
    destruct Hin as [<- | [<- | [<- | [<- | [<- | [<- | []]]]]]];
      simpl; auto; vm_compute in Hre; discriminate Hre.
  - unfold User_save, ret in Hrun. discriminate Hrun.
Qed.


(** X17.  Signing up and then signing in: when [bcrypt_compare] accepts a
    password against its own hash, and no stored user has the new email
    as user name or the new user name as email, then in every world
    that holds the collection that [signup] left, whatever its clock,
    [signin] with the email and [signin] with the user name are both
    fulfilled. *)
Theorem signup_then_signin (fullName email username password : string)
  (w w' later : World) (token : string) :
  bcrypt_compare (Some password) (bcrypt_hash password) = Normal true ->
  (forall v, In v (users w) ->
             User.username v <> email /\ User.email v <> username) ->
  signup fullName email username password w = (Fulfilled token, w') ->
  users later = users w' ->
  (exists t, fst (signin email (Some password) later) = Fulfilled t)
  /\ (exists t, fst (signin username (Some password) later) = Fulfilled t).
Proof.
  intros Hb Hcross Hrun Hlater.
  apply signup_fulfilled_inv in Hrun
    as (Hfind & _ & _ & _ & _ & _ & _ & _ & _ & _ & u & Hsave & ->).
  unfold User_save in Hsave. inversion Hsave; subst. clear Hsave.
  assert (Hold : forall v, In v (users w) ->
                   String.eqb (User.email v) email = false
                   /\ String.eqb (User.username v) username = false
                   /\ String.eqb (User.username v) email = false
                   /\ String.eqb (User.email v) username = false).
  { intros v Hv. pose proof (find_none _ _ Hfind v Hv) as Hq. simpl in Hq.
    apply orb_false_iff in Hq as [H1 H2].
    destruct (Hcross v Hv) as [H3 H4].
    apply String.eqb_neq in H3, H4. auto. }
  cbn [users record set_users] in Hlater.
  split; unfold signin, bind, User_findOne; rewrite Hlater.
  - rewrite find_app_last.
    + cbn [User.password]. rewrite Hb. eexists. reflexivity.
    + intros v Hv. destruct (Hold v Hv) as (-> & _ & -> & _). reflexivity.
    + cbn [User.email]. rewrite String.eqb_refl. reflexivity.
  - rewrite find_app_last.
    + cbn [User.password]. rewrite Hb. eexists. reflexivity.
    + intros v Hv. destruct (Hold v Hv) as (_ & -> & _ & ->). reflexivity.
    + cbn [User.username]. rewrite String.eqb_refl. apply orb_true_r.
Qed.

End SignupRuns.

(* ===================================================================== *)
(** * These theorems at work on the example collection                    *)
(* ===================================================================== *)

Section MoreExamples.

#[local] Existing Instance Demo.env.

Lemma context_authUser_verified_witness :
  exists a,
    VObject (Object_assign {[ "authUser" := Demo.ann_claims ]} Demo.models)
    = VObject (Object_assign {[ "authUser" := a ]} Demo.models)
    /\ ((a = VUndefined
         /\ headers (Demo.request "token-of-ann") !! "authorization"
            = Some "null"
         /\ record (OpVerify (VString "token-of-ann")) Demo.world
            = Demo.world)
        \/ (truthy a = true
            /\ jwt_verify
                 (headers_authorization (Demo.request "token-of-ann")) SECRET
               = Normal a
            /\ record (OpVerify (VString "token-of-ann")) Demo.world
               = record
                   (OpVerify
                      (headers_authorization (Demo.request "token-of-ann")))
                   Demo.world)).
Proof.
  apply (context_authUser_verified Demo.models (Demo.request "token-of-ann")
           Demo.world).
  vm_compute. reflexivity.
Defined.

Lemma context_model_named_authUser_witness :
  (<[ "authUser" := VModel "authUser" ]> Demo.models) !! "authUser"
  = Some (VModel "authUser")
  /\ Object_assign {[ "authUser" := Demo.ann_claims ]}
       (<[ "authUser" := VModel "authUser" ]> Demo.models) !! "authUser"
     = Some (VModel "authUser").
Proof.
  split; [vm_compute; reflexivity |].
  apply (context_model_named_authUser
           (<[ "authUser" := VModel "authUser" ]> Demo.models)
           (Demo.request "token-of-ann") Demo.world
           (record (OpVerify (VString "token-of-ann")) Demo.world)).
  - vm_compute. reflexivity.
  - vm_compute. reflexivity.
Defined.

Lemma with_context_anonymous_witness :
  with_context Demo.models (Demo.request "null") None getAuthUser Demo.world
  = (Fulfilled None, Demo.world)
  /\ exists e,
       with_context Demo.models (Demo.request "null") None
         (searchUsers (Some "ann")) Demo.world
       = (Rejected e, Demo.world).
Proof.
  destruct (with_context_anonymous Demo.models (Demo.request "null")
              Demo.world) as [Hauth Hsearch].
  - vm_compute. reflexivity.
  - vm_compute. reflexivity.
  - split; [exact Hauth |]. apply Hsearch. discriminate.
Defined.

Lemma with_context_verified_witness :
  with_context Demo.models (Demo.request "token-of-ann") None getAuthUser
    Demo.world
  = getAuthUser Demo.ann_claims
      (record (OpVerify (headers_authorization (Demo.request "token-of-ann")))
         Demo.world).
Proof.
  apply (with_context_verified Demo.models (Demo.request "token-of-ann")
           Demo.world Demo.ann_claims getAuthUser).
  - vm_compute. reflexivity.
  - vm_compute. reflexivity.
  - vm_compute. reflexivity.
  - reflexivity.
Defined.

Lemma searchUsers_complete_witness :
  exists test,
    RegExp "o" "i" = Some test
    /\ sublist [Demo.bob] (users Demo.world)
    /\ length [Demo.bob]
       = Nat.min 50
           (length
              (List.filter
                 (fun u => (test (User.username u) || test (User.fullName u))
                           && negb (field_is (VString "u1") (User._id u)))
                 (users Demo.world)))
    /\ ((length
           (List.filter
              (fun u => (test (User.username u) || test (User.fullName u))
                        && negb (field_is (VString "u1") (User._id u)))
              (users Demo.world)) <= 50)%nat ->
        [Demo.bob]
        = List.filter
            (fun u => (test (User.username u) || test (User.fullName u))
                      && negb (field_is (VString "u1") (User._id u)))
            (users Demo.world)).
Proof.
  destruct (RegExp "o" "i") as [test |] eqn:Ere;
    [| vm_compute in Ere; discriminate].
  exists test. split; [reflexivity |].
  apply (searchUsers_complete "o" test (VString "u1") Demo.ann_claims
           Demo.world (record OpFind Demo.world) [Demo.bob]).
  - discriminate.
  - exact Ere.
  - vm_compute. reflexivity.
  - vm_compute. reflexivity.
Defined.

Lemma verifyResetPasswordToken_earlier_witness :
  users Demo.world = users Demo.later
  /\ clock Demo.world <= clock Demo.later
  /\ fst (verifyResetPasswordToken (Some "ann@example.com") "r3s3t" Demo.later)
     = Fulfilled "Success"
  /\ fst (verifyResetPasswordToken (Some "ann@example.com") "r3s3t"
            Demo.world)
     = Fulfilled "Success".
Proof.
  split; [reflexivity |]. split; [vm_compute; discriminate |].
  split; [vm_compute; reflexivity |].
  apply (verifyResetPasswordToken_earlier (Some "ann@example.com") "r3s3t"
           Demo.later Demo.world).
  - reflexivity.
  - vm_compute. discriminate.
  - vm_compute. reflexivity.
Defined.

Lemma verifyResetPasswordToken_last_instant_witness :
  fst (verifyResetPasswordToken (Some "ann@example.com") "r3s3t" Demo.later)
  = Fulfilled "Success"
  <-> clock Demo.later <= 1000000 + 3600000.
Proof.
  apply (verifyResetPasswordToken_last_instant (Some "ann@example.com")
           "r3s3t" Demo.later Demo.ann 1000000).
  - left. reflexivity.
  - reflexivity.
  - reflexivity.
  - intros v [<- | [<- | []]] He Ht; [reflexivity | discriminate].
Defined.

Lemma verifyResetPasswordToken_nothing_pending_witness :
  fst (verifyResetPasswordToken (Some "bob@example.com") "r3s3t"
         {| users := [Demo.bob]; log := []; clock := 0 |})
  = Rejected (Error "This token is either invalid or expired!").
Proof.
  apply (verifyResetPasswordToken_nothing_pending (Some "bob@example.com")
           "r3s3t" {| users := [Demo.bob]; log := []; clock := 0 |}).
  intros u [<- | []]. left. reflexivity.
Defined.

Lemma getAuthUser_idempotent_witness :
  map User.isOnline
    (users (snd (getAuthUser Demo.ann_claims
                   {| users :=
                        users (snd (getAuthUser Demo.ann_claims Demo.world));
                      log := []; clock := 9000000 |})))
  = [true; false].
Proof.
  apply (getAuthUser_idempotent Demo.ann_claims Demo.world
           {| users := users (snd (getAuthUser Demo.ann_claims Demo.world));
              log := []; clock := 9000000 |}).
  reflexivity.
Defined.

Lemma signup_accepts_only_valid_witness :
  (forall u, In u (users Demo.world) ->
             User.email u <> "cy@example.com"
             /\ User.username u <> "cy.young")
  /\ (4 <= String.length "Cy Young" <= 40)%nat
  /\ emailRegex_test (toLowerCase "cy@example.com") = true
  /\ usernameRegex_test "cy.young" = true
  /\ (3 <= String.length "cy.young" <= 20)%nat
  /\ ~ In "cy.young" frontEndPages
  /\ (6 <= String.length "secret1")%nat.
Proof.
  apply (signup_accepts_only_valid "Cy Young" "cy@example.com" "cy.young"
           "secret1" Demo.world
           (snd (signup "Cy Young" "cy@example.com" "cy.young" "secret1"
                   Demo.world))
           "jwt:u3:1y").
  vm_compute. reflexivity.
Defined.

Lemma signup_unavailable_usernames_witness :
  In "post" ["explore"; "people"; "notifications"; "post"].
Proof.
  apply (signup_unavailable_usernames "Cy Young" "cy@example.com" "post"
           "secret1" Demo.world (record OpFindOne Demo.world)).
  vm_compute. reflexivity.
Defined.


Lemma signup_then_signin_witness :
  (exists t,
     fst (signin "cy@example.com" (Some "secret1")
            {| users :=
                 users (snd (signup "Cy Young" "cy@example.com" "cy.young"
                               "secret1" Demo.world));
               log := []; clock := 9000000 |})
     = Fulfilled t)
  /\ (exists t,
        fst (signin "cy.young" (Some "secret1")
               {| users :=
                    users (snd (signup "Cy Young" "cy@example.com"
                                  "cy.young" "secret1" Demo.world));
                  log := []; clock := 9000000 |})
        = Fulfilled t).
Proof.
  apply (signup_then_signin "Cy Young" "cy@example.com" "cy.young" "secret1"
           Demo.world
           (snd (signup "Cy Young" "cy@example.com" "cy.young" "secret1"
                   Demo.world))
           _ "jwt:u3:1y").
  - vm_compute. reflexivity.
  - intros v [<- | [<- | []]]; split; discriminate.
  - vm_compute. reflexivity.
  - reflexivity.
Defined.

Lemma emailRegex_accepts_shape_witness :
  exists local domain,
    chars "ann.lee@example.com" = (local ++ "@"%char :: domain)%list
    /\ local <> []
    /\ (4 <= length domain)%nat
    /\ Forall (fun c =>
                 Chars.is_domain_label c = true \/ Chars.is_period c = true
                 \/ c = "["%char \/ c = "]"%char) domain.
Proof.
  apply (emailRegex_accepts_shape "ann.lee@example.com").
  vm_compute. reflexivity.
Defined.

Lemma email_and_username_disjoint_witness :
  usernameRegex_test "ann.lee" = true /\ emailRegex_test "ann.lee" = false.
Proof.
  split; [vm_compute; reflexivity |].
  apply (email_and_username_disjoint "ann.lee"). vm_compute. reflexivity.
Defined.

End MoreExamples.
